(** * The module control facade of the App Engine [module] package

    A shallow embedding of [module.go]: the seven public operations
    (List, NumInstances, SetNumInstances, Versions, DefaultVersion, Start,
    Stop), their legacy RPC path and their Admin API path, the path
    selector and the identity resolution, followed by the properties the
    specification states about them.

    Conventions of the embedding:
    - a Go [string] is a [string] (a sequence of bytes);
    - a Go [float64] is a [spec_float], compared with the IEEE 754
      comparison [SFcompare] of the standard library;
    - a Go [int] / [int64] is a [Z], conversions wrap at 64 bits
      (the facade runs on 64-bit App Engine runtimes, where [int] is 64 bits);
    - a Go [map[string]float64] is a [gmap string spec_float]; the order in
      which [range] visits it is chosen by the runtime and is a parameter;
    - a pointer field that may be nil is an [option];
    - an [(value, error)] result is a pair whose second component is an
      [option error] ([None] is Go's nil error);
    - the process environment and the requests sent to the two remote
      collaborators are threaded through a small state monad, whose second
      outcome is a run-time panic. *)

From Stdlib Require Import ZArith String Ascii SpecFloat Lia.
From stdpp Require Import gmap strings list.

(** ** float64 *)

Module Float64.

Abbreviation float64 := spec_float.

Definition prec : Z := 53.
Definition emax : Z := 1024.

(** The representations that denote a binary64 value. *)
Definition is_float64 (x : float64) : bool := valid_binary prec emax x.

(** The literals of the program and of its tests. *)
Definition one : float64 := S754_finite false 4503599627370496 (-52).
Definition minus_one : float64 := S754_finite true 4503599627370496 (-52).
Definition zero : float64 := S754_zero false.
Definition half : float64 := S754_finite false 4503599627370496 (-53).
(** 0.4 and 0.6 rounded to nearest: 0x1.999999999999ap-2, 0x1.3333333333333p-1 *)
Definition four_tenths : float64 := S754_finite false 7205759403792794 (-54).
Definition six_tenths : float64 := S754_finite false 5404319552844595 (-53).
Definition nan : float64 := S754_nan.

(** Go's [a == b], [a > b] and [a <= b] on float64. *)
Definition eq (a b : float64) : bool := SFeqb a b.
Definition gt (a b : float64) : bool := SFltb b a.
Definition le (a b : float64) : bool := SFleb a b.

(** A fractional allocation, as the data model has it: a value of [0,1]. *)
Definition fraction (a : float64) : bool := le zero a && le a one.

End Float64.

(** ** The functions of Go's [strings] and [fmt] packages the program calls *)

Module GoStrings.

(** [strings.Index(s, substr)]: index of the first occurrence, or -1. *)
Definition Index (s substr : string) : Z :=
  match String.index 0 substr s with
  | Some i => Z.of_nat i
  | None => (-1)%Z
  end.

(** The slice expression [s[lo:]]; the program only uses it with
    [0 <= lo <= len(s)]. *)
Definition slice_from (s : string) (lo : Z) : string :=
  String.substring (Z.to_nat lo) (String.length s - Z.to_nat lo) s.

Definition is_upper (c : ascii) : bool :=
  let n := nat_of_ascii c in (65 <=? n)%nat && (n <=? 90)%nat.

Definition lower_byte (c : ascii) : ascii :=
  if is_upper c then ascii_of_nat (nat_of_ascii c + 32) else c.

(** [strings.ToLower] on the bytes of an ASCII string: 'A'..'Z' are mapped
    to 'a'..'z', every other byte is kept.  On a string with bytes outside
    ASCII Go maps runes instead of bytes; no rune outside ASCII has one of
    the letters t, r, u, e as its lower case, so the comparison of the
    result with "true", the only use the program makes of it, is the same. *)
Fixpoint ToLower (s : string) : string :=
  match s with
  | EmptyString => EmptyString
  | String c s' => String (lower_byte c) (ToLower s')
  end.

(** Equality of two bytes up to the case of an ASCII letter. *)
Definition byte_fold_eq (a b : ascii) : bool :=
  Ascii.eqb a b
  || (is_upper a && Ascii.eqb (ascii_of_nat (nat_of_ascii a + 32)) b)
  || (is_upper b && Ascii.eqb (ascii_of_nat (nat_of_ascii b + 32)) a).

(** Case-insensitive equality of two strings, byte by byte. *)
Fixpoint fold_eq (s t : string) : bool :=
  match s, t with
  | EmptyString, EmptyString => true
  | String a s', String b t' => byte_fold_eq a b && fold_eq s' t'
  | _, _ => false
  end.

(** [fmt.Sprintf(format, arg)] for a format with one verb, [%s] or [%v],
    and an argument already rendered as a string. *)
Fixpoint Sprintf (format arg : string) : string :=
  match format with
  | EmptyString => EmptyString
  | String c rest =>
      if Ascii.eqb c "%" then
        match rest with
        | String v rest' =>
            if Ascii.eqb v "s" || Ascii.eqb v "v" then arg +:+ rest'
            else String c (Sprintf rest arg)
        | EmptyString => String c EmptyString
        end
      else String c (Sprintf rest arg)
  end.

(** The fields of a comma-separated field mask. *)
Fixpoint split_comma (s : string) (cur : string) : list string :=
  match s with
  | EmptyString => [cur]
  | String c s' =>
      if Ascii.eqb c "," then cur :: split_comma s' EmptyString
      else split_comma s' (cur +:+ String c EmptyString)
  end.

End GoStrings.

(** ** Machine integers *)

Module GoInt.

Definition wrap64 (z : Z) : Z := ((z + 2 ^ 63) mod 2 ^ 64 - 2 ^ 63)%Z.

Definition in_int64 (z : Z) : Prop := (- 2 ^ 63 <= z < 2 ^ 63)%Z.

(** The conversions [int(x)] of an int64 and [int64(x)] of an int. *)
Definition int_of_int64 (x : Z) : Z := wrap64 x.
Definition int64_of_int (x : Z) : Z := wrap64 x.

End GoInt.

(** ** Errors *)

(** An [error] value: a [*googleapi.Error], of which the program reads the
  status code, or any other error, known by its text. *)
Inductive error : Type :=
| GoogleapiError (Code : Z) (Message : string)
| ErrorString (text : string).

(** ** The shapes of the Admin API (package [admin]) *)

Module admin.

Record ManualScaling := { ms_Instances : Z }.

Record BasicScaling := { bs_MaxInstances : Z }.

(** The fields of [admin.Version] that the program or its tests name. *)
Record Version := {
  v_Id : string;
  v_ManualScaling : option ManualScaling;
  v_BasicScaling : option BasicScaling;
  v_ServingStatus : string
}.

(** The zero value of [admin.Version]: what a composite literal leaves in
    the fields it does not name. *)
Definition Version_zero : Version :=
  {| v_Id := ""; v_ManualScaling := None; v_BasicScaling := None;
     v_ServingStatus := "" |}.

Record TrafficSplit := { ts_Allocations : option (gmap string spec_float) }.

Record Service := { s_Id : string; s_Split : option TrafficSplit }.

End admin.

(** ** The messages of the legacy RPC protocol (package [pb]) *)

Module pb.

(** A request message; an optional field that was not set is [None]. *)
Inductive Request : Type :=
| GetModulesRequest
| GetNumInstancesRequest (Module Version : option string)
| SetNumInstancesRequest (Module Version : option string) (Instances : option Z)
| GetVersionsRequest (Module : option string)
| GetDefaultVersionRequest (Module : option string)
| StartModuleRequest (Module Version : option string)
| StopModuleRequest (Module Version : option string).

(** The response message after the call.  Every caller reads the one
    field its own response type declares:
    [GetModulesResponse.Module], [GetNumInstancesResponse.Instances],
    [GetVersionsResponse.Version], [GetDefaultVersionResponse.Version]. *)
Record Response := {
  res_Module : list string;
  res_Instances : option Z;
  res_Versions : list string;
  res_Version : option string
}.

End pb.

(** ** The process state and the monad of the operations *)

(** A request that leaves the facade: a legacy RPC, the construction of an
    Admin API client with its user agent, or a call of the Admin API made
    through a client (whose user agent travels with the request). *)
Inductive Outbound : Type :=
| RpcCall (service method : string) (req : pb.Request)
| NewService (userAgent : string)
| ServicesList (userAgent projectID : string)
| ServicesGet (userAgent projectID module : string)
| VersionsList (userAgent projectID module : string)
| VersionsGet (userAgent projectID module version : string)
| VersionsPatch (userAgent projectID module version : string)
    (update : admin.Version) (updateMask : string).

(** The state of the process: its environment variables and the requests it
    has sent so far, oldest first. *)
Record Proc := {
  environ : gmap string string;
  outbound : list Outbound
}.

(** A computation ends with a value and a new state, or panics. *)
Inductive Outcome (A : Type) : Type :=
| Done (a : A) (p : Proc)
| Panic (p : Proc).
Arguments Done {A} a p.
Arguments Panic {A} p.

Definition M (A : Type) : Type := Proc → Outcome A.

#[global] Instance M_ret : MRet M := λ A a p, Done a p.

#[global] Instance M_bind : MBind M := λ A B f m p,
  match m p with
  | Done a p' => f a p'
  | Panic p' => Panic p'
  end.

(** A nil pointer dereference. *)
Definition panic {A : Type} : M A := λ p, Panic p.

(** [os.Getenv]: the value of the variable, empty when it is not set. *)
Definition Getenv (key : string) : M string :=
  λ p, Done (default "" (environ p !! key)) p.

(** [os.Setenv], for the callers that change the flag between two calls. *)
Definition Setenv (key value : string) : M unit :=
  λ p, Done tt {| environ := <[key := value]> (environ p); outbound := outbound p |}.

Definition send (r : Outbound) : M unit :=
  λ p, Done tt {| environ := environ p; outbound := outbound p ++ [r] |}.

(** ** The collaborators *)

(** What a call reaches through its context [c] and through the Admin API
    client: the current version id, the answers of the legacy RPC service
    and of the Admin API, the text of a [*googleapi.Error], and the order in
    which the runtime ranges over a map (an enumeration of its entries). *)
Record Ctx := {
  VersionID : string;
  rpc : string → string → pb.Request → pb.Response * option error;
  admin_NewService : string → option error;
  Services_List : string → list admin.Service + error;
  Services_Get : string → string → admin.Service + error;
  Versions_List : string → string → list admin.Version + error;
  Versions_Get : string → string → string → admin.Version + error;
  Versions_Patch : string → string → string → admin.Version → string → option error;
  googleapi_Error : Z → string → string;
  range_order : gmap string spec_float → list (string * spec_float);
  range_order_perm : ∀ m, range_order m ≡ₚ map_to_list m
}.

(** [err.Error()]. *)
Definition Error (c : Ctx) (err : error) : string :=
  match err with
  | GoogleapiError code message => googleapi_Error c code message
  | ErrorString text => text
  end.

(** [fmt.Errorf(format, arg)] with one [%s] or [%v] verb. *)
Definition Errorf (format arg : string) : error :=
  ErrorString (GoStrings.Sprintf format arg).

(** [internal.Call(c, service, method, req, res)]: the response as the call
    leaves it, and the error. *)
Definition internal_Call (c : Ctx) (service method : string) (req : pb.Request)
  : M (pb.Response * option error) :=
  _ ← send (RpcCall service method req);
  mret (rpc c service method req).

(** An Admin API client ([*admin.APIService]); the program only configures
    its user agent. *)
Record APIService := { UserAgent : string }.

(** ** module.go *)

Definition getProjectID : M string :=
  projectID ← Getenv "GOOGLE_CLOUD_PROJECT";
  if decide (projectID = "") then
    appID ← Getenv "GAE_APPLICATION";
    appID ← (if decide (appID = "") then Getenv "APPLICATION_ID" else mret appID);
    let projectID :=
      let i := GoStrings.Index appID "~" in
      if decide (i ≠ (-1)%Z) then GoStrings.slice_from appID (i + 1) else projectID in
    let projectID :=
      let i := GoStrings.Index projectID ":" in
      if decide (i ≠ (-1)%Z) then GoStrings.slice_from projectID (i + 1) else projectID in
    mret projectID
  else mret projectID.

Definition getModuleorDefault : M string :=
  module ← Getenv "GAE_SERVICE";
  mret (if decide (module = "") then "default" else module).

Definition useAdminAPI : M bool :=
  flag ← Getenv "MODULES_USE_ADMIN_API";
  mret (bool_decide (GoStrings.ToLower flag = "true")).

Definition getAdminService (c : Ctx) (methodName : string) : M (APIService + error) :=
  let userAgent := "appengine-modules-api-go-client/" +:+ methodName in
  _ ← send (NewService userAgent);
  match admin_NewService c userAgent with
  | Some err =>
      mret (inr (Errorf "module: could not create admin service: %v" (Error c err)))
  | None => mret (inl {| UserAgent := userAgent |})
  end.

(** An optional field of a legacy request: set only when the argument is
    not empty. *)
Definition optional (s : string) : option string :=
  if decide (s ≠ "") then Some s else None.

Definition ListLegacy (c : Ctx) : M (list string * option error) :=
  '(res, err) ← internal_Call c "modules" "GetModules" pb.GetModulesRequest;
  mret (pb.res_Module res, err).

Definition List (c : Ctx) : M (list string * option error) :=
  adminAPI ← useAdminAPI;
  if negb adminAPI then ListLegacy c else
  projectID ← getProjectID;
  svc ← getAdminService c "get_modules";
  match svc with
  | inr err => mret ([], Some err)
  | inl svc =>
      _ ← send (ServicesList (UserAgent svc) projectID);
      match Services_List c projectID with
      | inr err => mret ([], Some err)
      | inl services => mret (map admin.s_Id services, None)
      end
  end.

Definition NumInstancesLegacy (c : Ctx) (module version : string)
  : M (Z * option error) :=
  let req := pb.GetNumInstancesRequest (optional module) (optional version) in
  '(res, err) ← internal_Call c "modules" "GetNumInstances" req;
  match err with
  | Some err => mret (0%Z, Some err)
  | None =>
      match pb.res_Instances res with
      | Some instances => mret (GoInt.int_of_int64 instances, None)
      | None => panic
      end
  end.

Definition NumInstances (c : Ctx) (module version : string) : M (Z * option error) :=
  adminAPI ← useAdminAPI;
  if negb adminAPI then NumInstancesLegacy c module version else
  module ← (if decide (module = "") then getModuleorDefault else mret module);
  let version := if decide (version = "") then VersionID c else version in
  projectID ← getProjectID;
  svc ← getAdminService c "get_num_instances";
  match svc with
  | inr err => mret (0%Z, Some err)
  | inl svc =>
      _ ← send (VersionsGet (UserAgent svc) projectID module version);
      match Versions_Get c projectID module version with
      | inr err => mret (0%Z, Some err)
      | inl v =>
          match admin.v_ManualScaling v with
          | Some manual => mret (GoInt.int_of_int64 (admin.ms_Instances manual), None)
          | None =>
              mret (0%Z, Some (Errorf "module: version %s is not using manual scaling" version))
          end
      end
  end.

Definition SetNumInstancesLegacy (c : Ctx) (module version : string) (instances : Z)
  : M (option error) :=
  let req := pb.SetNumInstancesRequest (optional module) (optional version)
               (Some (GoInt.int64_of_int instances)) in
  '(_, err) ← internal_Call c "modules" "SetNumInstances" req;
  mret err.

Definition SetNumInstances (c : Ctx) (module version : string) (instances : Z)
  : M (option error) :=
  adminAPI ← useAdminAPI;
  if negb adminAPI then SetNumInstancesLegacy c module version instances else
  module ← (if decide (module = "") then getModuleorDefault else mret module);
  let version := if decide (version = "") then VersionID c else version in
  projectID ← getProjectID;
  svc ← getAdminService c "set_num_instances";
  match svc with
  | inr err1 => mret (Some err1)
  | inl svc =>
      let update := {|
        admin.v_Id := "";
        admin.v_ManualScaling :=
          Some {| admin.ms_Instances := GoInt.int64_of_int instances |};
        admin.v_BasicScaling := None;
        admin.v_ServingStatus := "" |} in
      let updateMask := "manualScaling.instances" in
      _ ← send (VersionsPatch (UserAgent svc) projectID module version update updateMask);
      mret (Versions_Patch c projectID module version update updateMask)
  end.

Definition VersionsLegacy (c : Ctx) (module : string) : M (list string * option error) :=
  let req := pb.GetVersionsRequest (optional module) in
  '(res, err) ← internal_Call c "modules" "GetVersions" req;
  mret (pb.res_Versions res, err).

Definition Versions (c : Ctx) (module : string) : M (list string * option error) :=
  adminAPI ← useAdminAPI;
  if negb adminAPI then VersionsLegacy c module else
  module ← (if decide (module = "") then getModuleorDefault else mret module);
  projectID ← getProjectID;
  svc ← getAdminService c "get_versions";
  match svc with
  | inr err => mret ([], Some err)
  | inl svc =>
      _ ← send (VersionsList (UserAgent svc) projectID module);
      match Versions_List c projectID module with
      | inr err => mret ([], Some err)
      | inl versions => mret (map admin.v_Id versions, None)
      end
  end.

Definition DefaultVersionLegacy (c : Ctx) (module : string) : M (string * option error) :=
  let req := pb.GetDefaultVersionRequest (optional module) in
  '(res, err) ← internal_Call c "modules" "GetDefaultVersion" req;
  mret (default "" (pb.res_Version res), err).

(** The loop of DefaultVersion over the entries of the allocation map, in
    the order the runtime visits them; [retVersion] and [maxAlloc] are the
    two variables of the loop, and the result is their value after it. *)
Fixpoint scanAllocations (entries : list (string * spec_float))
    (retVersion : string) (maxAlloc : spec_float) : string * spec_float :=
  match entries with
  | [] => (retVersion, maxAlloc)
  | (version, allocation) :: rest =>
      if Float64.eq allocation Float64.one then (version, maxAlloc)
      else if Float64.gt allocation maxAlloc then scanAllocations rest version allocation
      else if Float64.eq allocation maxAlloc then
        if String.ltb version retVersion then scanAllocations rest version maxAlloc
        else scanAllocations rest retVersion maxAlloc
      else scanAllocations rest retVersion maxAlloc
  end.

(** The version DefaultVersion selects from a fetched service, before the
    test for the empty string. *)
Definition selectVersion (c : Ctx) (service : admin.Service) : string :=
  let retVersion := "" in
  let maxAlloc := Float64.minus_one in
  match admin.s_Split service with
  | Some split =>
      match admin.ts_Allocations split with
      | Some allocations =>
          fst (scanAllocations (range_order c allocations) retVersion maxAlloc)
      | None => retVersion
      end
  | None => retVersion
  end.

Definition DefaultVersion (c : Ctx) (module : string) : M (string * option error) :=
  adminAPI ← useAdminAPI;
  if negb adminAPI then DefaultVersionLegacy c module else
  module ← (if decide (module = "") then getModuleorDefault else mret module);
  projectID ← getProjectID;
  svc ← getAdminService c "get_default_version";
  match svc with
  | inr err => mret ("", Some err)
  | inl svc =>
      _ ← send (ServicesGet (UserAgent svc) projectID module);
      match Services_Get c projectID module with
      | inr err =>
          let notFound :=
            match err with
            | GoogleapiError code _ => bool_decide (code = 404%Z)
            | ErrorString _ => false
            end in
          if notFound then mret ("", Some (Errorf "module: Module '%s' not found" module))
          else mret ("", Some err)
      | inl service =>
          let retVersion := selectVersion c service in
          if decide (retVersion = "") then
            mret ("", Some (Errorf
              "module: could not determine default version for module '%s'" module))
          else mret (retVersion, None)
      end
  end.

Definition setServingStatus (c : Ctx) (module version status : string) : M (option error) :=
  projectID ← getProjectID;
  let methodName :=
    if decide (status = "SERVING") then "start_version"
    else if decide (status = "STOPPED") then "stop_version"
    else "" in
  svc ← getAdminService c methodName;
  match svc with
  | inr err => mret (Some err)
  | inl svc =>
      module ← (if decide (module = "") then getModuleorDefault else mret module);
      let version := if decide (version = "") then VersionID c else version in
      let update := {|
        admin.v_Id := "";
        admin.v_ManualScaling := None;
        admin.v_BasicScaling := None;
        admin.v_ServingStatus := status |} in
      let updateMask := "servingStatus" in
      _ ← send (VersionsPatch (UserAgent svc) projectID module version update updateMask);
      mret (Versions_Patch c projectID module version update updateMask)
  end.

Definition StartLegacy (c : Ctx) (module version : string) : M (option error) :=
  let req := pb.StartModuleRequest (optional module) (optional version) in
  '(_, err) ← internal_Call c "modules" "StartModule" req;
  mret err.

Definition Start (c : Ctx) (module version : string) : M (option error) :=
  adminAPI ← useAdminAPI;
  if negb adminAPI then StartLegacy c module version
  else setServingStatus c module version "SERVING".

Definition StopLegacy (c : Ctx) (module version : string) : M (option error) :=
  let req := pb.StopModuleRequest (optional module) (optional version) in
  '(_, err) ← internal_Call c "modules" "StopModule" req;
  mret err.

Definition Stop (c : Ctx) (module version : string) : M (option error) :=
  adminAPI ← useAdminAPI;
  if negb adminAPI then StopLegacy c module version
  else setServingStatus c module version "STOPPED".

(** ** Callers and observations *)

Inductive Operation : Type :=
| OpList | OpNumInstances | OpSetNumInstances | OpVersions
| OpDefaultVersion | OpStart | OpStop.

(** A call of one public operation by application code, its result dropped;
    the arguments an operation does not take are ignored. *)
Definition call (c : Ctx) (op : Operation) (module version : string) (instances : Z)
  : M unit :=
  match op with
  | OpList => _ ← List c; mret tt
  | OpNumInstances => _ ← NumInstances c module version; mret tt
  | OpSetNumInstances => _ ← SetNumInstances c module version instances; mret tt
  | OpVersions => _ ← Versions c module; mret tt
  | OpDefaultVersion => _ ← DefaultVersion c module; mret tt
  | OpStart => _ ← Start c module version; mret tt
  | OpStop => _ ← Stop c module version; mret tt
  end.

(** The method name each operation passes to getAdminService. *)
Definition methodName (op : Operation) : string :=
  match op with
  | OpList => "get_modules"
  | OpNumInstances => "get_num_instances"
  | OpSetNumInstances => "set_num_instances"
  | OpVersions => "get_versions"
  | OpDefaultVersion => "get_default_version"
  | OpStart => "start_version"
  | OpStop => "stop_version"
  end.

Definition final {A : Type} (o : Outcome A) : Proc :=
  match o with
  | Done _ p => p
  | Panic p => p
  end.

Definition panicked {A : Type} (o : Outcome A) : bool :=
  match o with
  | Done _ _ => false
  | Panic _ => true
  end.

(** The state after the requests [rs] have been sent from [p]. *)
Definition sent (p : Proc) (rs : list Outbound) : Proc :=
  {| environ := environ p; outbound := outbound p ++ rs |}.

(** The requests sent between the states [p] and [p']. *)
Definition since (p p' : Proc) : list Outbound :=
  drop (length (outbound p)) (outbound p').

Definition is_rpc (r : Outbound) : bool :=
  match r with
  | RpcCall _ _ _ => true
  | _ => false
  end.

(** The user agent a request carries, if it is one to the Admin API. *)
Definition userAgentOf (r : Outbound) : option string :=
  match r with
  | RpcCall _ _ _ => None
  | NewService ua | ServicesList ua _ | ServicesGet ua _ _
  | VersionsList ua _ _ | VersionsGet ua _ _ _ | VersionsPatch ua _ _ _ _ _ => Some ua
  end.

Inductive Path : Type := Legacy | Modern.

(** The path a call took, read off the requests it sent: the legacy path
    sends one RPC and nothing else, the modern path first builds an Admin API
    client and sends no RPC. *)
Definition path_taken (rs : list Outbound) : option Path :=
  match rs with
  | [RpcCall _ _ _] => Some Legacy
  | NewService _ :: rest => if forallb (λ r, negb (is_rpc r)) rest then Some Modern else None
  | _ => None
  end.

(** The value of an environment variable in a state. *)
Definition getenv (p : Proc) (key : string) : string :=
  default "" (environ p !! key).

(** The application id the project id is derived from. *)
Definition applicationID (p : Proc) : string :=
  if decide (getenv p "GAE_APPLICATION" = "") then getenv p "APPLICATION_ID"
  else getenv p "GAE_APPLICATION".

(** The byte [b] does not occur in [s]. *)
Fixpoint free_of (b : ascii) (s : string) : Prop :=
  match s with
  | EmptyString => True
  | String a s' => a ≠ b ∧ free_of b s'
  end.

(** What follows the first occurrence of the byte [b] in [s], if there is
    one. *)
Fixpoint after_byte (b : ascii) (s : string) : option string :=
  match s with
  | EmptyString => None
  | String a s' => if Ascii.eqb a b then Some s' else after_byte b s'
  end.

(** [s] with everything up to and including the first [b] stripped; a
    string without [b] has nothing to strip. *)
Definition strip_through (b : ascii) (s : string) : string :=
  default s (after_byte b s).

(** Project-id resolution in the words of the specification: the explicit
    project-id variable; else the application id with everything up to and
    including a tilde stripped, then a domain prefix "domain:" stripped. *)
Definition specProjectID (p : Proc) : string :=
  if decide (getenv p "GOOGLE_CLOUD_PROJECT" = "") then
    strip_through ":" (strip_through "~" (applicationID p))
  else getenv p "GOOGLE_CLOUD_PROJECT".

(** The module a modern-path call works on. *)
Definition moduleOrDefault (p : Proc) (module : string) : string :=
  if decide (module = "") then
    (if decide (getenv p "GAE_SERVICE" = "") then "default" else getenv p "GAE_SERVICE")
  else module.

Definition versionOrDefault (c : Ctx) (version : string) : string :=
  if decide (version = "") then VersionID c else version.

(** The entry [x] of an allocation map is at least as good a default as the
    entry [y]: its allocation is greater, or the allocations are equal and
    its version id is not the greater one. *)
Definition beats (x y : string * spec_float) : Prop :=
  Float64.gt x.2 y.2 = true
  ∨ (Float64.eq y.2 x.2 = true ∧ String.ltb y.1 x.1 = false).

(** The value a computation returns, [d] if it panics. *)
Definition result {A : Type} (d : A) (o : Outcome A) : A :=
  match o with
  | Done a _ => a
  | Panic _ => d
  end.

(** The project id a call resolves in the state [p]. *)
Definition projectID (p : Proc) : string := result "" (getProjectID p).

(** The call is made with the Admin API enabled. *)
Definition modern (p : Proc) : Prop := useAdminAPI p = Done true p.

(** The user agent of the client an operation builds. *)
Definition clientUserAgent (op : Operation) : string :=
  "appengine-modules-api-go-client/" +:+ methodName op.

(** The client of an operation can be built. *)
Definition client_ok (c : Ctx) (op : Operation) : Prop :=
  admin_NewService c (clientUserAgent op) = None.

(** The JSON names of the fields of a version payload that are set, that
    is, differ from the zero value. *)
Definition populated (v : admin.Version) : list string :=
  (if decide (admin.v_Id v = "") then [] else ["id"])
  ++ (if admin.v_ManualScaling v is Some _ then ["manualScaling"] else [])
  ++ (if admin.v_BasicScaling v is Some _ then ["basicScaling"] else [])
  ++ (if decide (admin.v_ServingStatus v = "") then [] else ["servingStatus"]).

(** The payloads of the two kinds of update. *)
Definition instancesUpdate (instances : Z) : admin.Version :=
  {| admin.v_Id := ""; 
     admin.v_ManualScaling := Some {| admin.ms_Instances := instances |};
     admin.v_BasicScaling := None;
     admin.v_ServingStatus := "" |}.

Definition statusUpdate (status : string) : admin.Version :=
  {| admin.v_Id := ""; 
     admin.v_ManualScaling := None;
     admin.v_BasicScaling := None;
     admin.v_ServingStatus := status |}.

(** The entry has allocation exactly 1.0. *)
Definition full_allocation (e : string * spec_float) : bool :=
  Float64.eq e.2 Float64.one.

(** ** A numeric key for the order of float64 *)

Module Float64Key.

(** 1 for NaN, 0 otherwise. *)
Definition nanz (x : spec_float) : Z :=
  match x with
  | S754_nan => 1
  | _ => 0
  end.

(** The class, exponent and mantissa keys: on values that are not NaN the
    comparison is the lexicographic one of the three keys. *)
Definition kc (x : spec_float) : Z :=
  match x with
  | S754_infinity true => -2
  | S754_finite true _ _ => -1
  | S754_zero _ | S754_nan => 0
  | S754_finite false _ _ => 1
  | S754_infinity false => 2
  end.

Definition ke (x : spec_float) : Z :=
  match x with
  | S754_finite true _ e => - e
  | S754_finite false _ e => e
  | _ => 0
  end.

Definition km (x : spec_float) : Z :=
  match x with
  | S754_finite true m _ => - Z.pos m
  | S754_finite false m _ => Z.pos m
  | _ => 0
  end.

Definition key_lt (a b : spec_float) : Prop :=
  (kc a < kc b ∨ (kc a = kc b ∧ (ke a < ke b ∨ (ke a = ke b ∧ km a < km b))))%Z.

Definition key_eq (a b : spec_float) : Prop :=
  (kc a = kc b ∧ ke a = ke b ∧ km a = km b)%Z.

End Float64Key.

(** ** The inputs of the test suite *)

Module Fixtures.

Definition noResponse : pb.Response :=
  {| pb.res_Module := []; pb.res_Instances := None;
     pb.res_Versions := []; pb.res_Version := None |}.

(** A context with fixed answers: the version and the service the Admin API
    returns, and the response of the legacy service.  Maps are visited in
    the order of [map_to_list]. *)
Definition fake (version : admin.Version + error) (service : admin.Service + error)
    (res : pb.Response) : Ctx :=
  {| VersionID := "test-version";
     rpc := λ _ _ _, (res, None);
     admin_NewService := λ _, None;
     Services_List := λ _, inl [];
     Services_Get := λ _ _, service;
     Versions_List := λ _ _, inl [];
     Versions_Get := λ _ _ _, version;
     Versions_Patch := λ _ _ _ _ _, None;
     googleapi_Error := λ _ message, message;
     range_order := map_to_list;
     range_order_perm := λ m, Permutation_refl (map_to_list m) |}.

(** The same collaborators under a runtime that visits maps the other way
    round. *)
Definition reversed (c : Ctx) : Ctx :=
  {| VersionID := VersionID c;
     rpc := rpc c;
     admin_NewService := admin_NewService c;
     Services_List := Services_List c;
     Services_Get := Services_Get c;
     Versions_List := Versions_List c;
     Versions_Get := Versions_Get c;
     Versions_Patch := Versions_Patch c;
     googleapi_Error := googleapi_Error c;
     range_order := λ m, reverse (range_order c m);
     range_order_perm := λ m,
       perm_trans (reverse_Permutation (range_order c m)) (range_order_perm c m) |}.

(** The process of the Admin API tests, and a process without the flag. *)
Definition adminProc : Proc :=
  {| environ := {[ "MODULES_USE_ADMIN_API" := "true";
                   "GOOGLE_CLOUD_PROJECT" := "test-project" ]};
     outbound := [] |}.

Definition legacyProc : Proc := {| environ := ∅; outbound := [] |}.

(** A process that derives its project id from the application id. *)
Definition appProc : Proc :=
  {| environ := {[ "GAE_APPLICATION" := "s~google.com:test-project" ]};
     outbound := [] |}.

Definition manual10 : admin.Version :=
  {| admin.v_Id := "v1";
     admin.v_ManualScaling := Some {| admin.ms_Instances := 10 |};
     admin.v_BasicScaling := None;
     admin.v_ServingStatus := "SERVING" |}.

Definition serviceOf (allocations : gmap string spec_float) : admin.Service :=
  {| admin.s_Id := "default";
     admin.s_Split := Some {| admin.ts_Allocations := Some allocations |} |}.

Definition tie : gmap string spec_float :=
  {[ "version-b" := Float64.half; "version-a" := Float64.half ]}.

Definition oneFull : gmap string spec_float :=
  {[ "v1" := Float64.one; "v2" := Float64.zero ]}.

Definition maxAllocation : gmap string spec_float :=
  {[ "v1" := Float64.four_tenths; "v2" := Float64.six_tenths ]}.

Definition notFound : error := GoogleapiError 404 "Not Found".

(** The process of the example in the comment of getProjectID: an
    application id "google.com:project-id", nothing else set. *)
Definition commentProc : Proc :=
  {| environ := {[ "APPLICATION_ID" := "google.com:project-id" ]};
     outbound := [] |}.

(** A process whose application id has a domain but no partition. *)
Definition domainProc : Proc :=
  {| environ := {[ "APPLICATION_ID" := "google.com:test-project" ]};
     outbound := [] |}.

(** A context whose Admin API client cannot be built. *)
Definition clientless (c : Ctx) : Ctx :=
  {| VersionID := VersionID c;
     rpc := rpc c;
     admin_NewService := λ _, Some (ErrorString "no credentials");
     Services_List := Services_List c;
     Services_Get := Services_Get c;
     Versions_List := Versions_List c;
     Versions_Get := Versions_Get c;
     Versions_Patch := Versions_Patch c;
     googleapi_Error := googleapi_Error c;
     range_order := range_order c;
     range_order_perm := range_order_perm c |}.

(** A context in which every remote call fails with [err]. *)
Definition failing (err : error) : Ctx :=
  {| VersionID := "test-version";
     rpc := λ _ _ _, (noResponse, Some err);
     admin_NewService := λ _, None;
     Services_List := λ _, inr err;
     Services_Get := λ _ _, inr err;
     Versions_List := λ _ _, inr err;
     Versions_Get := λ _ _ _, inr err;
     Versions_Patch := λ _ _ _ _ _, Some err;
     googleapi_Error := λ _ message, message;
     range_order := map_to_list;
     range_order_perm := λ m, Permutation_refl (map_to_list m) |}.

(** A context that lists the services and the versions of the tests. *)
Definition listing : Ctx :=
  {| VersionID := "test-version";
     rpc := λ _ _ _, (noResponse, None);
     admin_NewService := λ _, None;
     Services_List := λ _,
       inl [ {| admin.s_Id := "default"; admin.s_Split := None |};
             {| admin.s_Id := "backend-api"; admin.s_Split := None |} ];
     Services_Get := λ _ _, inr notFound;
     Versions_List := λ _ _,
       inl [ {| admin.v_Id := "v2"; admin.v_ManualScaling := None;
                admin.v_BasicScaling := None; admin.v_ServingStatus := "SERVING" |};
             {| admin.v_Id := "v1"; admin.v_ManualScaling := None;
                admin.v_BasicScaling := None; admin.v_ServingStatus := "STOPPED" |} ];
     Versions_Get := λ _ _ _, inr notFound;
     Versions_Patch := λ _ _ _ _ _, None;
     googleapi_Error := λ _ message, message;
     range_order := map_to_list;
     range_order_perm := λ m, Permutation_refl (map_to_list m) |}.

(** A process on the legacy path with other variables set. *)
Definition legacyProc' : Proc :=
  {| environ := {[ "GAE_SERVICE" := "backend"; "GOOGLE_CLOUD_PROJECT" := "test-project" ]};
     outbound := [] |}.

Definition twoFull : gmap string spec_float :=
  {[ "v1" := Float64.one; "v2" := Float64.one ]}.

Definition nothingAbove : gmap string spec_float :=
  {[ "v1" := Float64.minus_one; "v2" := Float64.nan ]}.

Definition count3 : pb.Response :=
  {| pb.res_Module := []; pb.res_Instances := Some 3%Z;
     pb.res_Versions := []; pb.res_Version := None |}.

End Fixtures.

(** ** The results of the operations and the requests expected of them *)

(** What an operation returns to its caller. *)
Inductive Returned : Type :=
| Names (names : list string) (err : option error)
| Count (count : Z) (err : option error)
| VersionId (version : string) (err : option error)
| Status (err : option error).

(** A call of one public operation with its result kept. *)
Definition invoke (c : Ctx) (op : Operation) (module version : string) (instances : Z)
  : M Returned :=
  match op with
  | OpList => '(names, err) ← List c; mret (Names names err)
  | OpNumInstances => '(count, err) ← NumInstances c module version; mret (Count count err)
  | OpSetNumInstances => err ← SetNumInstances c module version instances; mret (Status err)
  | OpVersions => '(names, err) ← Versions c module; mret (Names names err)
  | OpDefaultVersion => '(v, err) ← DefaultVersion c module; mret (VersionId v err)
  | OpStart => err ← Start c module version; mret (Status err)
  | OpStop => err ← Stop c module version; mret (Status err)
  end.

Definition errorOf (r : Returned) : option error :=
  match r with
  | Names _ err | Count _ err | VersionId _ err | Status err => err
  end.

(** The result carries no value: a nil slice, a zero count, an empty
    version id. *)
Definition no_value (r : Returned) : bool :=
  match r with
  | Names names _ => bool_decide (names = [])
  | Count count _ => bool_decide (count = 0%Z)
  | VersionId v _ => bool_decide (v = "")
  | Status _ => true
  end.

(** What can be seen of a run started in [p]: the value returned, if the
    run did not panic, and the requests sent. *)
Definition observe {A : Type} (p : Proc) (o : Outcome A) : option A * list Outbound :=
  (match o with
   | Done a _ => Some a
   | Panic _ => None
   end, since p (final o)).

(** The operations that take a module, and those that take a version. *)
Definition takes_module (op : Operation) : bool :=
  match op with
  | OpList => false
  | _ => true
  end.

Definition takes_version (op : Operation) : bool :=
  match op with
  | OpNumInstances | OpSetNumInstances | OpStart | OpStop => true
  | _ => false
  end.

(** The request to the Admin API that an operation is expected to send
    through its client, for the names resolved in the state [p]. *)
Definition adminRequest (c : Ctx) (p : Proc) (op : Operation)
    (module version : string) (instances : Z) : Outbound :=
  let ua := clientUserAgent op in
  let project := projectID p in
  let module := moduleOrDefault p module in
  let version := versionOrDefault c version in
  match op with
  | OpList => ServicesList ua project
  | OpNumInstances => VersionsGet ua project module version
  | OpSetNumInstances =>
      VersionsPatch ua project module version
        (instancesUpdate (GoInt.int64_of_int instances)) "manualScaling.instances"
  | OpVersions => VersionsList ua project module
  | OpDefaultVersion => ServicesGet ua project module
  | OpStart =>
      VersionsPatch ua project module version (statusUpdate "SERVING") "servingStatus"
  | OpStop =>
      VersionsPatch ua project module version (statusUpdate "STOPPED") "servingStatus"
  end.

(** The method and the request of the legacy RPC expected of an operation. *)
Definition legacyMethod (op : Operation) : string :=
  match op with
  | OpList => "GetModules"
  | OpNumInstances => "GetNumInstances"
  | OpSetNumInstances => "SetNumInstances"
  | OpVersions => "GetVersions"
  | OpDefaultVersion => "GetDefaultVersion"
  | OpStart => "StartModule"
  | OpStop => "StopModule"
  end.

(** A field of a legacy request: absent for the empty string. *)
Definition field (s : string) : option string :=
  match s with
  | EmptyString => None
  | _ => Some s
  end.

Definition legacyRequest (op : Operation) (module version : string) (instances : Z)
  : pb.Request :=
  match op with
  | OpList => pb.GetModulesRequest
  | OpNumInstances => pb.GetNumInstancesRequest (field module) (field version)
  | OpSetNumInstances =>
      pb.SetNumInstancesRequest (field module) (field version)
        (Some (GoInt.int64_of_int instances))
  | OpVersions => pb.GetVersionsRequest (field module)
  | OpDefaultVersion => pb.GetDefaultVersionRequest (field module)
  | OpStart => pb.StartModuleRequest (field module) (field version)
  | OpStop => pb.StopModuleRequest (field module) (field version)
  end.

(** The module (service) an Admin API request names, if it names one. *)
Definition moduleOf (r : Outbound) : option string :=
  match r with
  | ServicesGet _ _ module | VersionsList _ _ module
  | VersionsGet _ _ module _ | VersionsPatch _ _ module _ _ _ => Some module
  | _ => None
  end.

(** The project an Admin API request names. *)
Definition projectOf (r : Outbound) : option string :=
  match r with
  | ServicesList _ project | ServicesGet _ project _ | VersionsList _ project _
  | VersionsGet _ project _ _ | VersionsPatch _ project _ _ _ _ => Some project
  | _ => None
  end.

Definition is_patch (r : Outbound) : bool :=
  match r with
  | VersionsPatch _ _ _ _ _ _ => true
  | _ => false
  end.

(** The operations that only read. *)
Definition reads (op : Operation) : bool :=
  match op with
  | OpList | OpNumInstances | OpVersions | OpDefaultVersion => true
  | _ => false
  end.

(** The allocation map of a service, empty when the service has none. *)
Definition allocationsOf (service : admin.Service) : gmap string spec_float :=
  match admin.s_Split service with
  | Some split => default ∅ (admin.ts_Allocations split)
  | None => ∅
  end.

(** ** The example application (package main) *)

Module main.

(** What the handler writes: to the response with [fmt.Fprintf(w, ...)] or
    [http.Error(w, text, code)], to the standard output with [fmt.Printf]. *)
Inductive Output : Type :=
| Fprintf (text : string)
| HttpError (text : string) (code : Z)
| Printf (text : string).

Definition newline : string := String (ascii_of_nat 10) "".

(** [handler], for the context of the request and the module name that
    [appengine.ModuleName] reports for it; the value is what the handler
    has written, in order. *)
Definition handler (c : Ctx) (currentMod : string) : M (list Output) :=
  '(modules, err) ← List c;
  match err with
  | Some err =>
      mret [HttpError (GoStrings.Sprintf "Error listing modules: %v" (Error c err)) 500]
  | None =>
      let out :=
        Fprintf ("Modules:" +:+ newline)
        :: map (λ m, Fprintf (GoStrings.Sprintf ("- %s" +:+ newline) m)) modules in
      '(defaultVer, err) ← DefaultVersion c currentMod;
      let defaultVer := if err is Some _ then "unknown" else defaultVer in
      let out :=
        out ++ [Fprintf (GoStrings.Sprintf ("DefaultVersion %s:" +:+ newline) defaultVer)] in
      let queryModule := "default" in
      '(versions, err) ← Versions c queryModule;
      match err with
      | Some err =>
          mret (out ++ [HttpError ("Could not list versions: " +:+ Error c err) 500])
      | None =>
          let out :=
            out
            ++ Fprintf (GoStrings.Sprintf ("Versions for module %s:" +:+ newline) queryModule)
               :: map (λ v, Fprintf (GoStrings.Sprintf ("- %s" +:+ newline) v)) versions in
          err ← SetNumInstances c "bundled-services-mail-java-sdk-app" "20251016t135918" 5;
          match err with
          | Some err =>
              mret (out ++ [Printf (GoStrings.Sprintf
                              ("Scaling failed (expected if not manual scaling): %v"
                               +:+ newline) (Error c err))])
          | None => mret out
          end
      end
  end.

Definition is_error (o : Output) : bool :=
  match o with
  | HttpError _ _ => true
  | _ => false
  end.

(** What of the output goes to the response. *)
Definition to_response (o : Output) : bool :=
  match o with
  | Printf _ => false
  | _ => true
  end.

(** The status of the response as net/http commits it: the code of
    [http.Error] when that is the first write to [w], 200 otherwise (the
    first [Fprintf] sends the header with 200, and the [WriteHeader] of a
    later [http.Error] is ignored). *)
Definition statusOf (out : list Output) : Z :=
  match List.filter to_response out with
  | HttpError _ code :: _ => code
  | _ => 200
  end.

End main.

(** * Facts *)

Module Float64Facts.
Import Float64Key.

Lemma compare_key (a b : spec_float) :
  SFcompare a b =
    if decide (nanz a = 0 ∧ nanz b = 0)%Z then
      Some (if decide (key_lt a b) then Lt else if decide (key_eq a b) then Eq else Gt)
    else None.
Proof.
  unfold key_lt, key_eq.
  destruct a as [sa|sa| |sa ma ea], b as [sb|sb| |sb mb eb];
    try destruct sa; try destruct sb; cbn [SFcompare nanz kc ke km];
    repeat case_decide; try reflexivity; try lia.
  all: change (PosDef.Pos.compare_cont Eq ma mb) with (Pos.compare ma mb).
  all: destruct (Z.compare_spec ea eb); try lia;
       destruct (Pos.compare_spec ma mb); cbn [CompOpp]; try reflexivity; try lia.
Qed.

Lemma gt_key (a b : spec_float) :
  Float64.gt a b = true ↔ (nanz a = 0 ∧ nanz b = 0)%Z ∧ key_lt b a.
Proof.
  unfold Float64.gt, SFltb. rewrite compare_key.
  unfold key_lt, key_eq. repeat case_decide; split; intros; try discriminate; try lia.
Qed.

Lemma eq_key (a b : spec_float) :
  Float64.eq a b = true ↔ (nanz a = 0 ∧ nanz b = 0)%Z ∧ key_eq a b.
Proof.
  unfold Float64.eq, SFeqb. rewrite compare_key.
  unfold key_lt, key_eq. repeat case_decide; split; intros; try discriminate; try lia.
Qed.

Lemma le_key (a b : spec_float) :
  Float64.le a b = true ↔ (nanz a = 0 ∧ nanz b = 0)%Z ∧ ¬ key_lt b a.
Proof.
  unfold Float64.le, SFleb. rewrite compare_key.
  unfold key_lt, key_eq. repeat case_decide; split; intros; try discriminate; try lia.
Qed.

Lemma nanz_range (a : spec_float) : (0 <= nanz a <= 1)%Z.
Proof. destruct a; simpl; lia. Qed.

End Float64Facts.

(** Decides a goal about the order of float64 values from the hypotheses
    that compare them, through the numeric keys. *)
Ltac float_order :=
  repeat match goal with
  | H : Float64.gt _ _ = false |- _ => apply not_true_iff_false in H
  | H : Float64.eq _ _ = false |- _ => apply not_true_iff_false in H
  | H : Float64.le _ _ = false |- _ => apply not_true_iff_false in H
  | |- Float64.gt _ _ = false => apply not_true_iff_false
  | |- Float64.eq _ _ = false => apply not_true_iff_false
  | |- Float64.le _ _ = false => apply not_true_iff_false
  end;
  rewrite ?Float64Facts.gt_key, ?Float64Facts.eq_key, ?Float64Facts.le_key in *;
  unfold Float64Key.key_lt, Float64Key.key_eq in *;
  cbn [Float64Key.nanz Float64Key.kc Float64Key.ke Float64Key.km
       Float64.one Float64.minus_one Float64.zero] in *;
  lia.

Module StringOrder.

Lemma ascii_compare_lt_trans (a b c : ascii) :
  Ascii.compare a b = Lt → Ascii.compare b c = Lt → Ascii.compare a c = Lt.
Proof.
  unfold Ascii.compare. rewrite !N.compare_lt_iff. lia.
Qed.

Lemma compare_refl (s : string) : String.compare s s = Eq.
Proof.
  induction s as [|a s IH]; [reflexivity|]. simpl.
  unfold Ascii.compare. by rewrite N.compare_refl.
Qed.

Lemma compare_lt_trans (s t u : string) :
  String.compare s t = Lt → String.compare t u = Lt → String.compare s u = Lt.
Proof.
  revert t u. induction s as [|a s IH]; intros [|b t] [|c u]; simpl; try done.
  destruct (Ascii.compare a b) eqn:Hab; try done;
    destruct (Ascii.compare b c) eqn:Hbc; try done; intros H1 H2.
  - apply Ascii.compare_eq_iff in Hab, Hbc. subst.
    unfold Ascii.compare. rewrite N.compare_refl. eauto.
  - apply Ascii.compare_eq_iff in Hab. subst. by rewrite Hbc.
  - apply Ascii.compare_eq_iff in Hbc. subst. by rewrite Hab.
  - by rewrite (ascii_compare_lt_trans a b c).
Qed.

Lemma ltb_irrefl (s : string) : String.ltb s s = false.
Proof. unfold String.ltb. by rewrite compare_refl. Qed.

Lemma ltb_trans (s t u : string) :
  String.ltb s t = true → String.ltb t u = true → String.ltb s u = true.
Proof.
  unfold String.ltb. intros H1 H2.
  destruct (String.compare s t) eqn:E1; try done.
  destruct (String.compare t u) eqn:E2; try done.
  by rewrite (compare_lt_trans s t u).
Qed.

Lemma ltb_asym (s t : string) : String.ltb s t = true → String.ltb t s = false.
Proof.
  unfold String.ltb. rewrite (String.compare_antisym t s).
  by destruct (String.compare s t).
Qed.

Lemma ltb_total (s t : string) :
  String.ltb s t = false → String.ltb t s = false → s = t.
Proof.
  unfold String.ltb. rewrite (String.compare_antisym t s).
  destruct (String.compare s t) eqn:E; try done.
  intros _ _. by apply String.compare_eq_iff.
Qed.

(** "not greater" is transitive *)
Lemma not_ltb_trans (s t u : string) :
  String.ltb t s = false → String.ltb u t = false → String.ltb u s = false.
Proof.
  intros H1 H2.
  destruct (String.ltb u s) eqn:E; [|done].
  destruct (String.ltb s t) eqn:E1.
  - by rewrite (ltb_trans u s t) in H2.
  - assert (s = t) as -> by (apply ltb_total; [done|done]). congruence.
Qed.

Lemma ltb_empty (s : string) : String.ltb s "" = false.
Proof. by destruct s. Qed.

End StringOrder.

Module ScanFacts.
Import Float64Key.

(** Stepping through the loop: the four branches of its body. *)
Lemma scan_cons (v : string) (a : spec_float) rest rv ma :
  scanAllocations ((v, a) :: rest) rv ma =
    if Float64.eq a Float64.one then (v, ma)
    else if Float64.gt a ma then scanAllocations rest v a
    else if Float64.eq a ma then
      if String.ltb v rv then scanAllocations rest v ma
      else scanAllocations rest rv ma
    else scanAllocations rest rv ma.
Proof. reflexivity. Qed.

Lemma beats_weaken_l (r : string * spec_float) (v rv : string) (a ma : spec_float) :
  beats r (v, a) → Float64.gt a ma = true → beats r (rv, ma).
Proof.
  unfold beats; simpl. intros [H|[H _]] Hgt; left; float_order.
Qed.

Lemma scan_best (l : list (string * spec_float)) : ∀ rv ma,
  nanz ma = 0%Z →
  Forall (λ e, Float64.eq e.2 Float64.one = false) l →
  let r := scanAllocations l rv ma in
  nanz r.2 = 0%Z
  ∧ (r = (rv, ma) ∨ ∃ a, (r.1, a) ∈ l ∧ Float64.eq a r.2 = true)
  ∧ beats r (rv, ma)
  ∧ ∀ y, y ∈ l → nanz y.2 = 1%Z ∨ beats r y.
Proof.
  induction l as [|[v a] rest IH]; intros rv ma Hma Hfull.
  { simpl. split_and!; [done|by left| |intros y Hy; by apply elem_of_nil in Hy].
    right. simpl. split; [float_order|apply StringOrder.ltb_irrefl]. }
  apply Forall_cons in Hfull as [Ha Hrest]. simpl in Ha.
  rewrite scan_cons, Ha.
  destruct (Float64.gt a ma) eqn:Hgt.
  { destruct (IH v a) as (Hn & Hsrc & Hb & Hall); [float_order|done|].
    cbv zeta. set (r := scanAllocations rest v a) in *.
    split_and!; [done| | |].
    - right. destruct Hsrc as [Hr|(a' & Hin & Heq)].
      + exists a. rewrite Hr. simpl. split; [left|float_order].
      + exists a'. split; [by right|done].
    - by apply (beats_weaken_l r v rv a ma).
    - intros y [->|Hy]%elem_of_cons; [by right|by apply Hall]. }
  destruct (Float64.eq a ma) eqn:Heq.
  { destruct (String.ltb v rv) eqn:Hlt.
    - destruct (IH v ma) as (Hn & Hsrc & Hb & Hall); [done|done|].
      cbv zeta. set (r := scanAllocations rest v ma) in *.
      assert (beats r (v, a)) as Hva.
      { destruct Hb as [H|[H1 H2]]; [left|right]; simpl in *; [float_order|].
        split; [float_order|done]. }
      split_and!; [done| | |].
      + right. destruct Hsrc as [Hr|(a' & Hin & Heq')].
        * exists a. rewrite Hr. simpl. split; [left|done].
        * exists a'. split; [by right|done].
      + destruct Hb as [H|[H1 H2]]; [by left|right]; simpl in *.
        split; [done|].
        destruct (String.ltb rv r.1) eqn:E; [|done].
        by rewrite (StringOrder.ltb_trans v rv r.1) in H2.
      + intros y [->|Hy]%elem_of_cons; [by right|by apply Hall].
    - destruct (IH rv ma) as (Hn & Hsrc & Hb & Hall); [done|done|].
      cbv zeta. set (r := scanAllocations rest rv ma) in *.
      split_and!; [done| |done|].
      + destruct Hsrc as [Hr|(a' & Hin & Heq')]; [by left|right].
        exists a'. split; [by right|done].
      + intros y [->|Hy]%elem_of_cons; [|by apply Hall].
        right. destruct Hb as [H|[H1 H2]]; [left|right]; simpl in *; [float_order|].
        split; [float_order|]. by apply (StringOrder.not_ltb_trans r.1 rv v). }
  destruct (IH rv ma) as (Hn & Hsrc & Hb & Hall); [done|done|].
  cbv zeta. set (r := scanAllocations rest rv ma) in *.
  split_and!; [done| |done|].
  - destruct Hsrc as [Hr|(a' & Hin & Heq')]; [by left|right].
    exists a'. split; [by right|done].
  - intros y [->|Hy]%elem_of_cons; [|by apply Hall].
    simpl. pose proof (Float64Facts.nanz_range a) as Hrange.
    destruct (decide (nanz a = 1%Z)) as [|Hna]; [by left|right].
    left. simpl. destruct Hb as [H|[H1 H2]]; simpl in *; float_order.
Qed.

End ScanFacts.

Module ScanOrder.
Import Float64Key.

(** The loop stops at the first entry whose allocation is 1.0. *)
Lemma scan_find_full (l : list (string * spec_float)) : ∀ rv ma v a,
  List.find full_allocation l = Some (v, a) → (scanAllocations l rv ma).1 = v.
Proof.
  induction l as [|[v' a'] rest IH]; intros rv ma v a; [done|].
  rewrite ScanFacts.scan_cons. cbn [List.find].
  unfold full_allocation at 1. cbn [snd].
  destruct (Float64.eq a' Float64.one) eqn:Hfull.
  - by intros [= -> _].
  - intros Hfind. repeat case_match; by apply (IH _ _ v a).
Qed.

Lemma find_full_None (l : list (string * spec_float)) :
  List.find full_allocation l = None → Forall (λ e, Float64.eq e.2 Float64.one = false) l.
Proof.
  intros Hnone. apply Forall_forall. intros x Hx%list_elem_of_In.
  by apply (find_none _ _ Hnone).
Qed.

(** When one version only has allocation 1.0, the loop returns it. *)
Lemma scan_single_full (l : list (string * spec_float)) (v : string) (a : spec_float) :
  (v, a) ∈ l → Float64.eq a Float64.one = true →
  (∀ v' a', (v', a') ∈ l → Float64.eq a' Float64.one = true → v' = v) →
  ∀ rv ma, (scanAllocations l rv ma).1 = v.
Proof.
  intros Hin Hfull Honly rv ma.
  destruct (List.find full_allocation l) as [[v' a']|] eqn:Hfind.
  - rewrite (scan_find_full l rv ma v' a' Hfind).
    apply find_some in Hfind as [Hin'%list_elem_of_In Hfull']. by apply (Honly v' a').
  - apply find_full_None in Hfind.
    rewrite Forall_forall in Hfind. apply Hfind in Hin. simpl in Hin. congruence.
Qed.

(** Without an allocation of 1.0, two enumerations of the same entries
    leave the same version in [retVersion]. *)
Lemma scan_perm (l1 l2 : list (string * spec_float)) (rv : string) (ma : spec_float) :
  l1 ≡ₚ l2 → nanz ma = 0%Z →
  Forall (λ e, Float64.eq e.2 Float64.one = false) l1 →
  (scanAllocations l1 rv ma).1 = (scanAllocations l2 rv ma).1.
Proof.
  intros Hperm Hma Hnf1.
  assert (Forall (λ e, Float64.eq e.2 Float64.one = false) l2) as Hnf2
    by by rewrite <- Hperm.
  destruct (ScanFacts.scan_best l1 rv ma Hma Hnf1) as (Hn1 & Hs1 & Hb1 & Ha1).
  destruct (ScanFacts.scan_best l2 rv ma Hma Hnf2) as (Hn2 & Hs2 & Hb2 & Ha2).
  set (r1 := scanAllocations l1 rv ma) in *.
  set (r2 := scanAllocations l2 rv ma) in *.
  (* each result beats a candidate that carries the other's version *)
  assert (∃ a, Float64.eq a r2.2 = true ∧ beats r1 (r2.1, a)) as (a2 & He2 & B12).
  { destruct Hs2 as [->|(a & Hin & Heq)].
    - exists ma. split; [simpl; float_order|done].
    - exists a. split; [done|].
      rewrite <- Hperm in Hin. destruct (Ha1 _ Hin) as [Hnan|Hb]; [|done].
      simpl in Hnan. float_order. }
  assert (∃ a, Float64.eq a r1.2 = true ∧ beats r2 (r1.1, a)) as (a1 & He1 & B21).
  { destruct Hs1 as [->|(a & Hin & Heq)].
    - exists ma. split; [simpl; float_order|done].
    - exists a. split; [done|].
      rewrite Hperm in Hin. destruct (Ha2 _ Hin) as [Hnan|Hb]; [|done].
      simpl in Hnan. float_order. }
  unfold beats in B12, B21. simpl in B12, B21.
  destruct B12 as [G12|[E12 L12]]; destruct B21 as [G21|[E21 L21]];
    try (exfalso; float_order).
  by apply StringOrder.ltb_total.
Qed.

End ScanOrder.

(** * Running the operations *)

Module Run.

Lemma bind_done {A B : Type} (m : M A) (f : A → M B) (p p' : Proc) (a : A) :
  m p = Done a p' → (m ≫= f) p = f a p'.
Proof. unfold mbind, M_bind. by intros ->. Qed.

Lemma Getenv_done (key : string) (p : Proc) : Getenv key p = Done (getenv p key) p.
Proof. reflexivity. Qed.

Lemma useAdminAPI_done (p : Proc) :
  useAdminAPI p =
    Done (bool_decide (GoStrings.ToLower (getenv p "MODULES_USE_ADMIN_API") = "true")) p.
Proof. reflexivity. Qed.

Lemma getProjectID_done (p : Proc) : getProjectID p = Done (projectID p) p.
Proof.
  unfold projectID, getProjectID.
  rewrite (bind_done _ _ p p _ (Getenv_done _ p)).
  case_decide; [|done].
  rewrite (bind_done _ _ p p _ (Getenv_done _ p)).
  case_decide.
  - by rewrite (bind_done _ _ p p _ (Getenv_done _ p)).
  - by rewrite (bind_done _ _ p p (getenv p "GAE_APPLICATION") eq_refl).
Qed.

Lemma moduleOrDefault_done (module : string) (p : Proc) :
  (if decide (module = "") then getModuleorDefault else mret module) p
  = Done (moduleOrDefault p module) p.
Proof.
  unfold moduleOrDefault, getModuleorDefault. case_decide; [|done].
  by rewrite (bind_done _ _ p p _ (Getenv_done _ p)).
Qed.

Lemma send_done (r : Outbound) (p : Proc) : send r p = Done tt (sent p [r]).
Proof. reflexivity. Qed.

Lemma sent_sent (p : Proc) (l1 l2 : list Outbound) :
  sent (sent p l1) l2 = sent p (l1 ++ l2).
Proof. unfold sent. simpl. by rewrite <- app_assoc. Qed.

Lemma since_sent (p : Proc) (l : list Outbound) : since p (sent p l) = l.
Proof. unfold since, sent. simpl. by rewrite drop_app_length. Qed.

Lemma getAdminService_ok (c : Ctx) (op : Operation) (p : Proc) :
  client_ok c op →
  getAdminService c (methodName op) p
  = Done (inl {| UserAgent := clientUserAgent op |}) (sent p [NewService (clientUserAgent op)]).
Proof.
  unfold client_ok, getAdminService. fold (clientUserAgent op). intros Hok.
  rewrite (bind_done _ _ _ _ _ (send_done _ p)). by rewrite Hok.
Qed.

Lemma getAdminService_failed (c : Ctx) (op : Operation) (p : Proc) (err : error) :
  admin_NewService c (clientUserAgent op) = Some err →
  getAdminService c (methodName op) p
  = Done (inr (Errorf "module: could not create admin service: %v" (Error c err)))
      (sent p [NewService (clientUserAgent op)]).
Proof.
  unfold getAdminService. fold (clientUserAgent op). intros Hko.
  rewrite (bind_done _ _ _ _ _ (send_done _ p)). by rewrite Hko.
Qed.

End Run.

(** * The properties of the specification *)

Lemma wrap64_id (z : Z) : GoInt.in_int64 z → GoInt.wrap64 z = z.
Proof.
  unfold GoInt.in_int64, GoInt.wrap64. intros Hz.
  rewrite Z.mod_small; lia.
Qed.

(** Runs the prefix every modern-path read operation shares: the flag, the
    module and project resolution, the client. *)
Ltac run_modern Hmodern Hclient :=
  rewrite (Run.bind_done _ _ _ _ _ Hmodern); cbn [negb];
  try rewrite (Run.bind_done _ _ _ _ _ (Run.moduleOrDefault_done _ _));
  rewrite (Run.bind_done _ _ _ _ _ (Run.getProjectID_done _));
  rewrite (Run.bind_done _ _ _ _ _ (Run.getAdminService_ok _ _ _ Hclient));
  rewrite (Run.bind_done _ _ _ _ _ (Run.send_done _ _));
  rewrite Run.sent_sent; cbn [app UserAgent].

(** C2. On the modern path, once the version resource has been fetched,
    NumInstances returns the configured manual-scaling instance count and no
    error exactly when manual scaling is set on the resource; otherwise it
    returns no count (zero) and the error
    "module: version <version> is not using manual scaling".  The two
    outcomes exclude each other and there is no third. *)
Theorem NumInstances_manual_scaling_or_error
    (c : Ctx) (module version : string) (p : Proc) (v : admin.Version) :
  modern p → client_ok c OpNumInstances →
  Versions_Get c (projectID p) (moduleOrDefault p module) (versionOrDefault c version)
    = inl v →
  ∃ count err,
    NumInstances c module version p
    = Done (count, err)
        (sent p [NewService (clientUserAgent OpNumInstances);
                 VersionsGet (clientUserAgent OpNumInstances) (projectID p)
                   (moduleOrDefault p module) (versionOrDefault c version)])
    ∧ (∀ manual, admin.v_ManualScaling v = Some manual →
         count = GoInt.int_of_int64 (admin.ms_Instances manual) ∧ err = None
         ∧ (GoInt.in_int64 (admin.ms_Instances manual) →
            count = admin.ms_Instances manual))
    ∧ (admin.v_ManualScaling v = None →
         count = 0%Z
         ∧ err = Some (ErrorString ("module: version " +:+ versionOrDefault c version
                                    +:+ " is not using manual scaling")))
    ∧ (err = None ↔ is_Some (admin.v_ManualScaling v)).
Proof.
  intros Hmodern Hclient Hget. unfold NumInstances, versionOrDefault in *.
  run_modern Hmodern Hclient. rewrite Hget.
  destruct (admin.v_ManualScaling v) as [manual|] eqn:Hmanual.
  - eexists _, _. split; [reflexivity|]. split_and!.
    + intros ? [= <-]. split_and!; [done|done|]. apply wrap64_id.
    + done.
    + split; [by eexists|done].
  - eexists _, _. split; [reflexivity|]. split_and!.
    + done.
    + done.
    + split; [done|]. by intros [? ?].
Qed.

(** What DefaultVersion returns once the service resource has been fetched. *)
Lemma DefaultVersion_fetched (c : Ctx) (module : string) (p : Proc) (service : admin.Service) :
  modern p → client_ok c OpDefaultVersion →
  Services_Get c (projectID p) (moduleOrDefault p module) = inl service →
  DefaultVersion c module p
  = Done (if decide (selectVersion c service = "") then
            ("", Some (ErrorString
                   ("module: could not determine default version for module '"
                    +:+ moduleOrDefault p module +:+ "'")))
          else (selectVersion c service, None))
      (sent p [NewService (clientUserAgent OpDefaultVersion);
               ServicesGet (clientUserAgent OpDefaultVersion) (projectID p)
                 (moduleOrDefault p module)]).
Proof.
  intros Hmodern Hclient Hget. unfold DefaultVersion.
  run_modern Hmodern Hclient. rewrite Hget.
  by case_decide.
Qed.

Lemma range_order_elem (c : Ctx) (allocations : gmap string spec_float)
    (v : string) (a : spec_float) :
  (v, a) ∈ range_order c allocations ↔ allocations !! v = Some a.
Proof. by rewrite (range_order_perm c allocations), elem_of_map_to_list. Qed.

Lemma fraction_above (a : spec_float) :
  Float64.fraction a = true →
  Float64Key.nanz a = 0%Z ∧ Float64.gt a Float64.minus_one = true.
Proof.
  unfold Float64.fraction. intros [H0 H1]%andb_true_iff. split; float_order.
Qed.

(** C1. On the modern path, with the service fetched and its allocations
    fractions of [0,1]: DefaultVersion selects the version of the first
    entry, in the order the map is visited, whose allocation equals 1.0, if
    there is one; otherwise, the map not being empty, it selects a version of
    the map that beats every entry: its allocation is the greatest, and among
    equal allocations its id is the lexicographically smallest.  The
    operation returns the selected version (an error if it is the empty
    string). *)
Theorem DefaultVersion_selects
    (c : Ctx) (module : string) (p : Proc) (service : admin.Service)
    (allocations : gmap string spec_float) :
  modern p → client_ok c OpDefaultVersion →
  Services_Get c (projectID p) (moduleOrDefault p module) = inl service →
  admin.s_Split service = Some {| admin.ts_Allocations := Some allocations |} →
  (∀ v a, allocations !! v = Some a → Float64.fraction a = true) →
  let selected := selectVersion c service in
  (selected ≠ "" →
   DefaultVersion c module p
   = Done (selected, None)
       (sent p [NewService (clientUserAgent OpDefaultVersion);
                ServicesGet (clientUserAgent OpDefaultVersion) (projectID p)
                  (moduleOrDefault p module)]))
  ∧ (∀ v a, List.find full_allocation (range_order c allocations)
            = Some (v, a) → selected = v)
  ∧ (List.find full_allocation (range_order c allocations) = None →
     allocations ≠ ∅ →
     ∃ a, allocations !! selected = Some a
          ∧ ∀ v' a', allocations !! v' = Some a' → beats (selected, a) (v', a')).
Proof.
  intros Hmodern Hclient Hget Hsplit Hfrac selected.
  assert (selected = (scanAllocations (range_order c allocations) "" Float64.minus_one).1)
    as Hsel by (unfold selected, selectVersion; by rewrite Hsplit).
  split_and!.
  - intros Hne. rewrite (DefaultVersion_fetched c module p service); [|done..].
    fold selected. by case_decide.
  - intros v a Hfind. rewrite Hsel. by apply (ScanOrder.scan_find_full _ _ _ v a).
  - intros Hnone%ScanOrder.find_full_None Hnonempty.
    destruct (ScanFacts.scan_best (range_order c allocations) "" Float64.minus_one)
      as (Hn & Hsrc & Hb & Hall); [done|done|].
    rewrite <- Hsel in *.
    set (r := scanAllocations (range_order c allocations) "" Float64.minus_one) in *.
    destruct Hsrc as [Hr|(a & Hin & Heq)].
    + (* the sentinel cannot survive an entry of [0,1] *)
      exfalso. destruct (map_choose _ Hnonempty) as (v' & a' & Hv').
      destruct (fraction_above a' (Hfrac _ _ Hv')) as [Hn' Hgt'].
      apply (range_order_elem c) in Hv'. destruct (Hall _ Hv') as [Hnan|Hbeats].
      * simpl in Hnan. lia.
      * rewrite Hr in Hbeats. unfold beats in Hbeats. simpl in Hbeats.
        destruct Hbeats as [H|[H _]]; float_order.
    + exists a. split; [by apply (range_order_elem c)|].
      intros v' a' Hv'. destruct (fraction_above a' (Hfrac _ _ Hv')) as [Hn' _].
      apply (range_order_elem c) in Hv'. destruct (Hall _ Hv') as [Hnan|Hbeats].
      * simpl in Hnan. lia.
      * unfold beats in *. simpl in *. rewrite <- Hsel in Hbeats.
        destruct Hbeats as [H|[H1 H2]]; [left; float_order|right].
        split; [float_order|done].
Qed.

(** C3. On the modern path, when the fetch of the service resource fails:
    a [*googleapi.Error] with code 404 is turned into the error
    "module: Module '<module>' not found"; every other failure, a
    [*googleapi.Error] with another code or an error of another kind, is
    returned as it is. *)
Theorem DefaultVersion_fetch_failure
    (c : Ctx) (module : string) (p : Proc) (err : error) :
  modern p → client_ok c OpDefaultVersion →
  Services_Get c (projectID p) (moduleOrDefault p module) = inr err →
  ∃ err',
    DefaultVersion c module p
    = Done ("", Some err')
        (sent p [NewService (clientUserAgent OpDefaultVersion);
                 ServicesGet (clientUserAgent OpDefaultVersion) (projectID p)
                   (moduleOrDefault p module)])
    ∧ (∀ message, err = GoogleapiError 404 message →
         err' = ErrorString ("module: Module '" +:+ moduleOrDefault p module
                             +:+ "' not found"))
    ∧ ((∀ message, err ≠ GoogleapiError 404 message) → err' = err).
Proof.
  intros Hmodern Hclient Hget. unfold DefaultVersion.
  run_modern Hmodern Hclient. rewrite Hget.
  destruct err as [code message|text].
  - destruct (decide (code = 404%Z)) as [->|Hcode].
    + eexists. split; [reflexivity|]. split; [done|].
      intros Hother. by destruct (Hother message).
    + rewrite bool_decide_eq_false_2 by done.
      eexists. split; [reflexivity|]. split; [|done].
      intros ? [= ? _]. done.
  - eexists. split; [reflexivity|]. split; done.
Qed.

(** C4. On the modern path, when the fetched service has no traffic split,
    no allocation map, or an empty one, DefaultVersion returns no version
    and the error
    "module: could not determine default version for module '<module>'". *)
Theorem DefaultVersion_no_allocations
    (c : Ctx) (module : string) (p : Proc) (service : admin.Service) :
  modern p → client_ok c OpDefaultVersion →
  Services_Get c (projectID p) (moduleOrDefault p module) = inl service →
  (admin.s_Split service = None
   ∨ admin.s_Split service = Some {| admin.ts_Allocations := None |}
   ∨ admin.s_Split service = Some {| admin.ts_Allocations := Some ∅ |}) →
  DefaultVersion c module p
  = Done ("", Some (ErrorString
                 ("module: could not determine default version for module '"
                  +:+ moduleOrDefault p module +:+ "'")))
      (sent p [NewService (clientUserAgent OpDefaultVersion);
               ServicesGet (clientUserAgent OpDefaultVersion) (projectID p)
                 (moduleOrDefault p module)]).
Proof.
  intros Hmodern Hclient Hget Hempty.
  rewrite (DefaultVersion_fetched c module p service) by done.
  assert (selectVersion c service = "") as ->; [|done].
  unfold selectVersion. destruct Hempty as [-> | [-> | ->] ]; [done|done|].
  simpl. pose proof (range_order_perm c ∅) as Hperm.
  rewrite map_to_list_empty in Hperm. apply Permutation_nil_r in Hperm.
  by rewrite Hperm.
Qed.

(** C9. When at most one version of the allocation map has allocation 1.0,
    the version the loop of DefaultVersion selects does not depend on the
    order in which the entries are visited: every enumeration of the map
    gives the version that any run of DefaultVersion selects. *)
Theorem DefaultVersion_order_independent
    (service : admin.Service) (allocations : gmap string spec_float) :
  admin.s_Split service = Some {| admin.ts_Allocations := Some allocations |} →
  (∀ v1 a1 v2 a2,
     allocations !! v1 = Some a1 → allocations !! v2 = Some a2 →
     Float64.eq a1 Float64.one = true → Float64.eq a2 Float64.one = true → v1 = v2) →
  (∀ l1 l2,
     l1 ≡ₚ map_to_list allocations → l2 ≡ₚ map_to_list allocations →
     (scanAllocations l1 "" Float64.minus_one).1
     = (scanAllocations l2 "" Float64.minus_one).1)
  ∧ (∀ c1 c2, selectVersion c1 service = selectVersion c2 service).
Proof.
  intros Hsplit Honce.
  assert (∀ l1 l2,
     l1 ≡ₚ map_to_list allocations → l2 ≡ₚ map_to_list allocations →
     (scanAllocations l1 "" Float64.minus_one).1
     = (scanAllocations l2 "" Float64.minus_one).1) as Hlists.
  { intros l1 l2 H1 H2.
    destruct (List.find full_allocation l1) as [[v a]|] eqn:Hfind.
    - apply find_some in Hfind as [Hin%list_elem_of_In Hfull]. simpl in Hfull.
      assert (∀ l, l ≡ₚ map_to_list allocations →
                (scanAllocations l "" Float64.minus_one).1 = v) as Hv.
      { intros l Hl. apply (ScanOrder.scan_single_full l v a); [|done|].
        - by rewrite Hl, <- H1.
        - intros v' a' Hin' Hfull'. apply (Honce v' a' v a); [| |done|done].
          + by rewrite Hl, elem_of_map_to_list in Hin'.
          + by rewrite H1, elem_of_map_to_list in Hin. }
      by rewrite (Hv l1), (Hv l2).
    - apply ScanOrder.find_full_None in Hfind.
      apply ScanOrder.scan_perm; [by rewrite H1, H2|done|done]. }
  split; [done|].
  intros c1 c2. unfold selectVersion. rewrite Hsplit. simpl.
  apply Hlists; apply range_order_perm.
Qed.

(** C10. On the legacy path of NumInstances, when the GetNumInstances call
    returns no error the instance count of the response is dereferenced
    without a test: the call panics exactly when the count is absent, and
    returns the count when it is present. *)
Theorem NumInstancesLegacy_dereference
    (c : Ctx) (module version : string) (p : Proc) (res : pb.Response) :
  rpc c "modules" "GetNumInstances"
    (pb.GetNumInstancesRequest (optional module) (optional version)) = (res, None) →
  (useAdminAPI p = Done false p →
   NumInstances c module version p = NumInstancesLegacy c module version p)
  ∧ (panicked (NumInstancesLegacy c module version p) = true
     ↔ pb.res_Instances res = None)
  ∧ (∀ instances, pb.res_Instances res = Some instances →
       NumInstancesLegacy c module version p
       = Done (GoInt.int_of_int64 instances, None)
           (sent p [RpcCall "modules" "GetNumInstances"
                      (pb.GetNumInstancesRequest (optional module) (optional version))])).
Proof.
  intros Hrpc. split.
  { intros Hlegacy. unfold NumInstances. by rewrite (Run.bind_done _ _ _ _ _ Hlegacy). }
  unfold NumInstancesLegacy, internal_Call.
  rewrite (Run.bind_done _ _ p (sent p [RpcCall "modules" "GetNumInstances"
    (pb.GetNumInstancesRequest (optional module) (optional version))])
    (res, None)).
  2:{ rewrite (Run.bind_done _ _ _ _ _ (Run.send_done _ _)). by rewrite Hrpc. }
  destruct (pb.res_Instances res) as [instances|]; split.
  - split; [done|done].
  - by intros ? [= <-].
  - done.
  - done.
Qed.

Module StringFacts.

Lemma index_byte_free (b : ascii) (s : string) :
  free_of b s → String.index 0 (String b "") s = None.
Proof.
  induction s as [|a s IH]; [done|]. intros [Hne Hfree]. simpl.
  destruct (ascii_dec b a) as [->|_]; [done|]. by rewrite IH.
Qed.

Lemma index_byte_first (b : ascii) (pre post : string) :
  free_of b pre →
  String.index 0 (String b "") (pre +:+ String b post) = Some (String.length pre).
Proof.
  induction pre as [|a pre IH].
  - intros _. simpl. destruct (ascii_dec b b); [|done]. by destruct post.
  - intros [Hne Hfree]. simpl.
    destruct (ascii_dec b a) as [->|_]; [done|]. by rewrite IH.
Qed.

Lemma substring_all (s : string) : String.substring 0 (String.length s) s = s.
Proof. induction s as [|a s IH]; [done|]. simpl. by rewrite IH. Qed.

Lemma length_app (s t : string) :
  String.length (s +:+ t) = (String.length s + String.length t)%nat.
Proof. induction s as [|a s IH]; [done|]. simpl. by rewrite IH. Qed.

Lemma Index_free (b : ascii) (s : string) :
  free_of b s → GoStrings.Index s (String b "") = (-1)%Z.
Proof. intros Hfree. unfold GoStrings.Index. by rewrite index_byte_free. Qed.

Lemma Index_first (b : ascii) (pre post : string) :
  free_of b pre →
  GoStrings.Index (pre +:+ String b post) (String b "") = Z.of_nat (String.length pre).
Proof. intros Hfree. unfold GoStrings.Index. by rewrite index_byte_first. Qed.

Lemma slice_after (b : ascii) (pre post : string) :
  GoStrings.slice_from (pre +:+ String b post) (Z.of_nat (String.length pre) + 1) = post.
Proof.
  unfold GoStrings.slice_from.
  replace (Z.to_nat (Z.of_nat (String.length pre) + 1)) with (S (String.length pre)) by lia.
  rewrite length_app. simpl String.length.
  replace (String.length pre + S (String.length post) - S (String.length pre))%nat
    with (String.length post) by lia.
  induction pre as [|a pre IH]; simpl.
  - apply substring_all.
  - apply IH.
Qed.

Lemma lower_t (c : ascii) :
  bool_decide (GoStrings.lower_byte c = "t"%char) = GoStrings.byte_fold_eq c "t".
Proof. destruct c as [[] [] [] [] [] [] [] []]; reflexivity. Qed.

Lemma lower_r (c : ascii) :
  bool_decide (GoStrings.lower_byte c = "r"%char) = GoStrings.byte_fold_eq c "r".
Proof. destruct c as [[] [] [] [] [] [] [] []]; reflexivity. Qed.

Lemma lower_u (c : ascii) :
  bool_decide (GoStrings.lower_byte c = "u"%char) = GoStrings.byte_fold_eq c "u".
Proof. destruct c as [[] [] [] [] [] [] [] []]; reflexivity. Qed.

Lemma lower_e (c : ascii) :
  bool_decide (GoStrings.lower_byte c = "e"%char) = GoStrings.byte_fold_eq c "e".
Proof. destruct c as [[] [] [] [] [] [] [] []]; reflexivity. Qed.

Lemma ToLower_true_iff (s : string) :
  GoStrings.ToLower s = "true" ↔ GoStrings.fold_eq s "true" = true.
Proof.
  destruct s as [|c1 [|c2 [|c3 [|c4 [|c5 s]]]]];
    cbn [GoStrings.ToLower GoStrings.fold_eq];
    rewrite <- ?lower_t, <- ?lower_r, <- ?lower_u, <- ?lower_e;
    rewrite ?andb_false_r, ?andb_true_r, ?andb_true_iff, ?bool_decide_eq_true;
    split; try discriminate.
  - intros [= -> -> -> ->]. done.
  - intros (-> & -> & -> & ->). done.
Qed.

(** The test of useAdminAPI is case-insensitive equality with "true". *)
Lemma ToLower_true (s : string) :
  bool_decide (GoStrings.ToLower s = "true") = GoStrings.fold_eq s "true".
Proof.
  destruct (GoStrings.fold_eq s "true") eqn:E.
  - apply bool_decide_eq_true, ToLower_true_iff, E.
  - apply bool_decide_eq_false. rewrite ToLower_true_iff. congruence.
Qed.

End StringFacts.

(** The project id as a function of the environment. *)
Lemma projectID_unfold (p : Proc) :
  projectID p =
    if decide (getenv p "GOOGLE_CLOUD_PROJECT" = "") then
      let afterTilde :=
        if decide (GoStrings.Index (applicationID p) "~" ≠ (-1)%Z)
        then GoStrings.slice_from (applicationID p)
               (GoStrings.Index (applicationID p) "~" + 1)
        else "" in
      if decide (GoStrings.Index afterTilde ":" ≠ (-1)%Z)
      then GoStrings.slice_from afterTilde (GoStrings.Index afterTilde ":" + 1)
      else afterTilde
    else getenv p "GOOGLE_CLOUD_PROJECT".
Proof.
  unfold projectID, getProjectID, applicationID.
  rewrite (Run.bind_done _ _ p p _ (Run.Getenv_done _ p)).
  destruct (decide (getenv p "GOOGLE_CLOUD_PROJECT" = "")) as [->|Hset]; [|done].
  rewrite (Run.bind_done _ _ p p _ (Run.Getenv_done _ p)).
  destruct (decide (getenv p "GAE_APPLICATION" = "")) as [Happ|Happ].
  - by rewrite (Run.bind_done _ _ p p _ (Run.Getenv_done _ p)).
  - by rewrite (Run.bind_done _ _ p p (getenv p "GAE_APPLICATION") eq_refl).
Qed.

(** An application id without a tilde gives the empty project id. *)
Lemma projectID_without_tilde (p : Proc) :
  getenv p "GOOGLE_CLOUD_PROJECT" = "" → free_of "~" (applicationID p) →
  projectID p = "".
Proof.
  intros Hunset Hfree. rewrite projectID_unfold, Hunset. simpl.
  rewrite (StringFacts.Index_free "~" _ Hfree). by simpl.
Qed.

(** Project-id resolution on the application ids that contain a tilde: it
    has no effect on the process and depends on the environment only.  It
    returns the variable GOOGLE_CLOUD_PROJECT when that is set (not empty);
    otherwise it takes the application id (GAE_APPLICATION, else
    APPLICATION_ID), keeps what follows its first tilde, and from that strips
    a domain prefix "domain:" when there is one. *)
Theorem getProjectID_resolution (p : Proc) :
  getProjectID p = Done (projectID p) p
  ∧ (∀ p', environ p' = environ p → getProjectID p' = Done (projectID p) p')
  ∧ (getenv p "GOOGLE_CLOUD_PROJECT" ≠ "" →
     projectID p = getenv p "GOOGLE_CLOUD_PROJECT")
  ∧ (getenv p "GOOGLE_CLOUD_PROJECT" = "" →
     ∀ pre post, applicationID p = pre +:+ "~" +:+ post → free_of "~" pre →
       (free_of ":" post → projectID p = post)
       ∧ (∀ domain rest, post = domain +:+ ":" +:+ rest → free_of ":" domain →
            projectID p = rest)).
Proof.
  split_and!.
  - apply Run.getProjectID_done.
  - intros p' Henv. rewrite Run.getProjectID_done. f_equal.
    rewrite !projectID_unfold. unfold applicationID, getenv. by rewrite Henv.
  - intros Hset. rewrite projectID_unfold. by case_decide.
  - intros Hunset pre post Happ Hpre.
    rewrite projectID_unfold, Hunset, Happ.
    change ("~" +:+ post) with (String "~" post).
    rewrite (StringFacts.Index_first "~" pre post Hpre).
    rewrite (StringFacts.slice_after "~" pre post).
    rewrite decide_True by done.
    rewrite (decide_True (P := Z.of_nat (String.length pre) ≠ (-1)%Z)) by lia. cbv zeta.
    split.
    + intros Hpost. rewrite (StringFacts.Index_free ":" _ Hpost).
      by case_decide.
    + intros domain rest -> Hdomain.
      change (":" +:+ rest) with (String ":" rest).
      rewrite (StringFacts.Index_first ":" domain rest Hdomain).
      rewrite (StringFacts.slice_after ":" domain rest).
      case_decide; [done|lia].
Qed.

Module Trace.

Lemma bind_unfold {A B : Type} (m : M A) (f : A → M B) (p : Proc) :
  (m ≫= f) p = match m p with
               | Done a p' => f a p'
               | Panic p' => Panic p'
               end.
Proof. reflexivity. Qed.

Lemma getAdminService_done (c : Ctx) (name : string) (p : Proc) :
  getAdminService c name p
  = Done (match admin_NewService c ("appengine-modules-api-go-client/" +:+ name) with
          | Some err =>
              inr (Errorf "module: could not create admin service: %v" (Error c err))
          | None => inl {| UserAgent := "appengine-modules-api-go-client/" +:+ name |}
          end)
      (sent p [NewService ("appengine-modules-api-go-client/" +:+ name)]).
Proof.
  unfold getAdminService.
  rewrite (Run.bind_done _ _ _ _ _ (Run.send_done _ p)). by case_match.
Qed.

Lemma internal_Call_done (c : Ctx) (service method : string) (req : pb.Request) (p : Proc) :
  internal_Call c service method req p
  = Done (rpc c service method req) (sent p [RpcCall service method req]).
Proof.
  unfold internal_Call. by rewrite (Run.bind_done _ _ _ _ _ (Run.send_done _ p)).
Qed.

End Trace.

(** Runs a call step by step up to the answers of the collaborators. *)
Ltac run_call :=
  repeat first
    [ rewrite (Run.bind_done _ _ _ _ _ (Run.moduleOrDefault_done _ _))
    | rewrite (Run.bind_done _ _ _ _ _ (Run.getProjectID_done _))
    | rewrite (Run.bind_done _ _ _ _ _ (Trace.getAdminService_done _ _ _))
    | rewrite (Run.bind_done _ _ _ _ _ (Trace.internal_Call_done _ _ _ _ _))
    | rewrite (Run.bind_done _ _ _ _ _ (Run.send_done _ _)) ].

(** Case analysis on the answer of a collaborator that the goal inspects. *)
Ltac answer :=
  match goal with
  | |- context [admin_NewService ?c ?ua] => destruct (admin_NewService c ua)
  | |- context [Services_List ?c ?a] => destruct (Services_List c a)
  | |- context [Services_Get ?c ?a ?b] => destruct (Services_Get c a b) as [?|[? ?|?]]
  | |- context [Versions_List ?c ?a ?b] => destruct (Versions_List c a b)
  | |- context [Versions_Get ?c ?a ?b ?d] => destruct (Versions_Get c a b d)
  | |- context [admin.v_ManualScaling ?v] => destruct (admin.v_ManualScaling v)
  | |- context [bool_decide ?P] => destruct (bool_decide P)
  | |- context [decide (selectVersion ?c ?s = "")] =>
      destruct (decide (selectVersion c s = ""))
  end.

Lemma call_modern (c : Ctx) (op : Operation) (module version : string) (instances : Z)
    (p : Proc) :
  modern p →
  ∃ rest,
    since p (final (call c op module version instances p))
      = NewService (clientUserAgent op) :: rest
    ∧ Forall (λ r, userAgentOf r = Some (clientUserAgent op)) rest
    ∧ environ (final (call c op module version instances p)) = environ p
    ∧ panicked (call c op module version instances p) = false.
Proof.
  intros Hmodern.
  destruct op; unfold call; rewrite Trace.bind_unfold;
    unfold List, NumInstances, SetNumInstances, Versions, DefaultVersion, Start, Stop;
    rewrite (Run.bind_done _ _ _ _ _ Hmodern); cbn [negb];
    unfold setServingStatus; run_call;
    repeat (rewrite decide_True by done);
    repeat (answer; run_call);
    rewrite ?Run.sent_sent; cbn [final panicked mret M_ret];
    rewrite ?Run.since_sent;
    (eexists; split_and!; [reflexivity|repeat constructor|reflexivity|reflexivity]).
Qed.

Lemma call_legacy (c : Ctx) (op : Operation) (module version : string) (instances : Z)
    (p : Proc) :
  useAdminAPI p = Done false p →
  ∃ method req,
    since p (final (call c op module version instances p))
      = [RpcCall "modules" method req]
    ∧ environ (final (call c op module version instances p)) = environ p.
Proof.
  intros Hlegacy.
  destruct op; unfold call; rewrite Trace.bind_unfold;
    unfold List, NumInstances, SetNumInstances, Versions, DefaultVersion, Start, Stop;
    rewrite (Run.bind_done _ _ _ _ _ Hlegacy); cbn [negb];
    unfold ListLegacy, NumInstancesLegacy, SetNumInstancesLegacy, VersionsLegacy,
      DefaultVersionLegacy, StartLegacy, StopLegacy;
    run_call;
    match goal with |- context [rpc ?c ?s ?m ?r] => destruct (rpc c s m r) as [res [err|]] end;
    try destruct (pb.res_Instances res);
    cbn [final panicked mret M_ret panic]; rewrite ?Run.since_sent;
    (eexists _, _; split; reflexivity).
Qed.

Lemma path_taken_modern (ua : string) (rest : list Outbound) :
  Forall (λ r, userAgentOf r = Some ua) rest →
  path_taken (NewService ua :: rest) = Some Modern.
Proof.
  intros Hrest. simpl.
  assert (forallb (λ r, negb (is_rpc r)) rest = true) as ->; [|done].
  apply forallb_forall. intros r Hr%list_elem_of_In.
  rewrite Forall_forall in Hrest. apply Hrest in Hr. by destruct r.
Qed.

(** The path of a call is decided by the flag in the state it starts from. *)
Lemma call_path (c : Ctx) (op : Operation) (module version : string) (instances : Z)
    (p : Proc) :
  path_taken (since p (final (call c op module version instances p)))
  = Some (if GoStrings.fold_eq (getenv p "MODULES_USE_ADMIN_API") "true"
          then Modern else Legacy).
Proof.
  pose proof (Run.useAdminAPI_done p) as Hflag.
  rewrite StringFacts.ToLower_true in Hflag.
  destruct (GoStrings.fold_eq (getenv p "MODULES_USE_ADMIN_API") "true").
  - destruct (call_modern c op module version instances p Hflag)
      as (rest & -> & Hrest & _). by apply path_taken_modern.
  - by destruct (call_legacy c op module version instances p Hflag)
      as (method & req & -> & _).
Qed.

(** C7. For each of the seven operations and every call, the modern path
    is taken exactly when the variable MODULES_USE_ADMIN_API is, at that
    moment, equal to "true" up to the case of its letters, and the legacy
    path otherwise.  A call leaves the environment as it is, and the path of
    the next call depends on the value the flag then has: when the flag is
    changed between two calls to a value of the other kind, the two calls
    take different paths. *)
Theorem path_reevaluated_on_each_call
    (c : Ctx) (op op' : Operation) (module version module' version' : string)
    (instances instances' : Z) (p : Proc) (value : string) :
  let flag := getenv p "MODULES_USE_ADMIN_API" in
  let first := call c op module version instances p in
  let p' := final (Setenv "MODULES_USE_ADMIN_API" value (final first)) in
  let second := call c op' module' version' instances' p' in
  useAdminAPI p = Done (GoStrings.fold_eq flag "true") p
  ∧ path_taken (since p (final first))
    = Some (if GoStrings.fold_eq flag "true" then Modern else Legacy)
  ∧ environ (final first) = environ p
  ∧ path_taken (since p' (final second))
    = Some (if GoStrings.fold_eq value "true" then Modern else Legacy)
  ∧ (GoStrings.fold_eq flag "true" ≠ GoStrings.fold_eq value "true" →
     path_taken (since p (final first)) ≠ path_taken (since p' (final second))).
Proof.
  intros flag first p' second.
  assert (getenv p' "MODULES_USE_ADMIN_API" = value) as Hvalue.
  { unfold p', getenv. simpl. by rewrite lookup_insert_eq. }
  assert (path_taken (since p' (final second))
          = Some (if GoStrings.fold_eq value "true" then Modern else Legacy)) as Hsecond.
  { unfold second. rewrite call_path. by rewrite Hvalue. }
  split_and!.
  - rewrite Run.useAdminAPI_done. by rewrite StringFacts.ToLower_true.
  - apply call_path.
  - pose proof (Run.useAdminAPI_done p) as Hflag.
    rewrite StringFacts.ToLower_true in Hflag. fold flag in Hflag.
    destruct (GoStrings.fold_eq flag "true").
    + by destruct (call_modern c op module version instances p Hflag) as (? & _ & _ & ? & _).
    + by destruct (call_legacy c op module version instances p Hflag) as (? & ? & _ & ?).
  - done.
  - intros Hdiff. rewrite Hsecond. unfold first. rewrite call_path. fold flag.
    destruct (GoStrings.fold_eq flag "true"), (GoStrings.fold_eq value "true"); done.
Qed.

Lemma SetNumInstances_modern (c : Ctx) (module version : string) (instances : Z) (p : Proc) :
  modern p → client_ok c OpSetNumInstances →
  SetNumInstances c module version instances p
  = Done (Versions_Patch c (projectID p) (moduleOrDefault p module)
            (versionOrDefault c version)
            (instancesUpdate (GoInt.int64_of_int instances)) "manualScaling.instances")
      (sent p [NewService (clientUserAgent OpSetNumInstances);
               VersionsPatch (clientUserAgent OpSetNumInstances) (projectID p)
                 (moduleOrDefault p module) (versionOrDefault c version)
                 (instancesUpdate (GoInt.int64_of_int instances))
                 "manualScaling.instances"]).
Proof.
  intros Hmodern Hclient. unfold SetNumInstances.
  by run_modern Hmodern Hclient.
Qed.

Lemma setServingStatus_run (c : Ctx) (op : Operation) (module version status : string)
    (p : Proc) :
  (op = OpStart ∧ status = "SERVING") ∨ (op = OpStop ∧ status = "STOPPED") →
  client_ok c op →
  setServingStatus c module version status p
  = Done (Versions_Patch c (projectID p) (moduleOrDefault p module)
            (versionOrDefault c version) (statusUpdate status) "servingStatus")
      (sent p [NewService (clientUserAgent op);
               VersionsPatch (clientUserAgent op) (projectID p)
                 (moduleOrDefault p module) (versionOrDefault c version)
                 (statusUpdate status) "servingStatus"]).
Proof.
  intros Hop Hclient. unfold setServingStatus.
  rewrite (Run.bind_done _ _ _ _ _ (Run.getProjectID_done _)).
  assert ((if decide (status = "SERVING") then "start_version"
           else if decide (status = "STOPPED") then "stop_version" else "")
          = methodName op) as ->.
  { by destruct Hop as [[-> ->]|[-> ->]]. }
  rewrite (Run.bind_done _ _ _ _ _ (Run.getAdminService_ok _ _ _ Hclient)).
  rewrite (Run.bind_done _ _ _ _ _ (Run.moduleOrDefault_done _ _)).
  rewrite (Run.bind_done _ _ _ _ _ (Run.send_done _ _)).
  by rewrite Run.sent_sent.
Qed.

Lemma Start_modern (c : Ctx) (module version : string) (p : Proc) :
  modern p →
  Start c module version p = setServingStatus c module version "SERVING" p.
Proof. intros Hmodern. unfold Start. by rewrite (Run.bind_done _ _ _ _ _ Hmodern). Qed.

Lemma Stop_modern (c : Ctx) (module version : string) (p : Proc) :
  modern p →
  Stop c module version p = setServingStatus c module version "STOPPED" p.
Proof. intros Hmodern. unfold Stop. by rewrite (Run.bind_done _ _ _ _ _ Hmodern). Qed.

(** When the client cannot be built, the call sends nothing else. *)
Lemma call_without_client (c : Ctx) (op : Operation) (module version : string)
    (instances : Z) (p : Proc) :
  modern p → ¬ client_ok c op →
  since p (final (call c op module version instances p)) = [NewService (clientUserAgent op)].
Proof.
  intros Hmodern Hclient. unfold client_ok in Hclient.
  destruct (admin_NewService c (clientUserAgent op)) as [err|] eqn:Hnew; [|done].
  destruct op; unfold call; rewrite Trace.bind_unfold;
    unfold List, NumInstances, SetNumInstances, Versions, DefaultVersion, Start, Stop;
    rewrite (Run.bind_done _ _ _ _ _ Hmodern); cbn [negb];
    unfold setServingStatus; run_call;
    repeat first [rewrite decide_True by done | rewrite decide_False by done];
    unfold clientUserAgent in Hnew; cbn [methodName] in Hnew; rewrite Hnew;
    cbn [final mret M_ret]; by rewrite Run.since_sent.
Qed.

(** C5. A mutating call on the modern path, once its client is built, sends
    one request to the version resource: a patch.  The update mask of the
    patch names exactly one field, manualScaling.instances for
    SetNumInstances and servingStatus for Start and Stop, and that field is
    the only one set in the payload.  When the client cannot be built, no
    request is sent to the version resource at all. *)
Theorem mutating_calls_patch_one_field
    (c : Ctx) (module version : string) (instances : Z) (p : Proc) :
  modern p →
  let project := projectID p in
  let module' := moduleOrDefault p module in
  let version' := versionOrDefault c version in
  (client_ok c OpSetNumInstances →
   ∃ update mask,
     SetNumInstances c module version instances p
     = Done (Versions_Patch c project module' version' update mask)
         (sent p [NewService (clientUserAgent OpSetNumInstances);
                  VersionsPatch (clientUserAgent OpSetNumInstances)
                    project module' version' update mask])
     ∧ mask = "manualScaling.instances"
     ∧ GoStrings.split_comma mask "" = ["manualScaling.instances"]
     ∧ update = instancesUpdate (GoInt.int64_of_int instances)
     ∧ populated update = ["manualScaling"])
  ∧ (client_ok c OpStart →
     ∃ update mask,
       Start c module version p
       = Done (Versions_Patch c project module' version' update mask)
           (sent p [NewService (clientUserAgent OpStart);
                    VersionsPatch (clientUserAgent OpStart)
                      project module' version' update mask])
       ∧ mask = "servingStatus"
       ∧ GoStrings.split_comma mask "" = ["servingStatus"]
       ∧ update = statusUpdate "SERVING"
       ∧ populated update = ["servingStatus"])
  ∧ (client_ok c OpStop →
     ∃ update mask,
       Stop c module version p
       = Done (Versions_Patch c project module' version' update mask)
           (sent p [NewService (clientUserAgent OpStop);
                    VersionsPatch (clientUserAgent OpStop)
                      project module' version' update mask])
       ∧ mask = "servingStatus"
       ∧ GoStrings.split_comma mask "" = ["servingStatus"]
       ∧ update = statusUpdate "STOPPED"
       ∧ populated update = ["servingStatus"])
  ∧ (∀ op, ¬ client_ok c op →
       since p (final (call c op module version instances p))
       = [NewService (clientUserAgent op)]).
Proof.
  intros Hmodern project module' version'. split_and!.
  - intros Hclient.
    eexists _, _. split; [by apply SetNumInstances_modern|]. by split_and!.
  - intros Hclient. eexists _, _. rewrite Start_modern by done.
    split; [apply (setServingStatus_run c OpStart); [by left|done]|]. by split_and!.
  - intros Hclient. eexists _, _. rewrite Stop_modern by done.
    split; [apply (setServingStatus_run c OpStop); [by right|done]|]. by split_and!.
  - intros op Hclient. by apply call_without_client.
Qed.

Lemma clientUserAgent_inj (op1 op2 : Operation) :
  clientUserAgent op1 = clientUserAgent op2 → op1 = op2.
Proof. destruct op1, op2; simpl; intros H; try reflexivity; discriminate H. Qed.

(** C6. On the modern path Start sends the serving status SERVING and Stop
    sends STOPPED.  Every request a call sends to the Admin API carries the
    user agent of its operation, and the user agents of the seven operations
    are pairwise different. *)
Theorem serving_status_and_tokens
    (c : Ctx) (module version : string) (instances : Z) (p : Proc) :
  modern p →
  (client_ok c OpStart →
   ∃ err project module' version' update mask,
     Start c module version p
     = Done err (sent p [NewService (clientUserAgent OpStart);
                         VersionsPatch (clientUserAgent OpStart)
                           project module' version' update mask])
     ∧ admin.v_ServingStatus update = "SERVING")
  ∧ (client_ok c OpStop →
     ∃ err project module' version' update mask,
       Stop c module version p
       = Done err (sent p [NewService (clientUserAgent OpStop);
                           VersionsPatch (clientUserAgent OpStop)
                             project module' version' update mask])
       ∧ admin.v_ServingStatus update = "STOPPED")
  ∧ (∀ op,
       since p (final (call c op module version instances p)) ≠ []
       ∧ ∀ r, r ∈ since p (final (call c op module version instances p)) →
              userAgentOf r = Some (clientUserAgent op))
  ∧ (∀ op1 op2, op1 ≠ op2 → clientUserAgent op1 ≠ clientUserAgent op2)
  ∧ clientUserAgent OpStart ≠ clientUserAgent OpStop.
Proof.
  intros Hmodern. split_and!.
  - intros Hclient. eexists _, _, _, _, _, _. rewrite Start_modern by done.
    split; [apply (setServingStatus_run c OpStart); [by left|done]|done].
  - intros Hclient. eexists _, _, _, _, _, _. rewrite Stop_modern by done.
    split; [apply (setServingStatus_run c OpStop); [by right|done]|done].
  - intros op.
    destruct (call_modern c op module version instances p Hmodern)
      as (rest & -> & Hrest & _).
    split; [done|]. intros r [->|Hr]%elem_of_cons; [done|].
    rewrite Forall_forall in Hrest. by apply Hrest.
  - intros op1 op2 Hne Heq. by apply Hne, clientUserAgent_inj.
  - done.
Qed.

(** * The table of the DefaultVersion test, and inputs outside the data model *)

Module Examples.
Import Fixtures.

Example literals_are_float64 :
  forallb Float64.is_float64
    [Float64.one; Float64.minus_one; Float64.zero; Float64.half;
     Float64.four_tenths; Float64.six_tenths; Float64.nan] = true.
Proof. reflexivity. Qed.

Example Success100Percent :
  selectVersion (fake (inl manual10) (inr notFound) noResponse) (serviceOf oneFull) = "v1".
Proof. reflexivity. Qed.

Example SuccessMaxAllocation :
  selectVersion (fake (inl manual10) (inr notFound) noResponse) (serviceOf maxAllocation)
  = "v2".
Proof. reflexivity. Qed.

Example SuccessTieBreaker :
  selectVersion (fake (inl manual10) (inr notFound) noResponse) (serviceOf tie)
  = "version-a".
Proof. reflexivity. Qed.

(** An allocation that is not above the initial value -1.0 of [maxAlloc], or
    that is NaN, is never selected. *)
Example below_initial_maxAlloc :
  scanAllocations [("v1", S754_finite true 4503599627370496 (-51))] "" Float64.minus_one
  = ("", Float64.minus_one).
Proof. reflexivity. Qed.

Example nan_allocation :
  scanAllocations [("v1", Float64.nan)] "" Float64.minus_one = ("", Float64.minus_one).
Proof. reflexivity. Qed.

End Examples.

(** * The properties on the inputs of the test suite *)

Module Witness.
Import Fixtures.

Lemma NumInstances_manual10 :
  NumInstances (fake (inl manual10) (inr notFound) noResponse) "default" "v1" adminProc
  = Done (10%Z, None)
      (sent adminProc
         [NewService "appengine-modules-api-go-client/get_num_instances";
          VersionsGet "appengine-modules-api-go-client/get_num_instances"
            "test-project" "default" "v1"]).
Proof.
  destruct (NumInstances_manual_scaling_or_error
              (fake (inl manual10) (inr notFound) noResponse) "default" "v1"
              adminProc manual10)
    as (count & err & Hrun & Hmanual & _); [reflexivity|reflexivity|reflexivity|].
  destruct (Hmanual _ eq_refl) as (_ & -> & Hcount).
  rewrite Hrun, Hcount; [reflexivity|]. unfold GoInt.in_int64. simpl. lia.
Defined.

Lemma DefaultVersion_tie :
  DefaultVersion (fake (inl manual10) (inl (serviceOf tie)) noResponse) "default" adminProc
  = Done ("version-a", None)
      (sent adminProc
         [NewService "appengine-modules-api-go-client/get_default_version";
          ServicesGet "appengine-modules-api-go-client/get_default_version"
            "test-project" "default"]).
Proof.
  destruct (DefaultVersion_selects
              (fake (inl manual10) (inl (serviceOf tie)) noResponse) "default"
              adminProc (serviceOf tie) tie)
    as (Hreturn & _ & _); [reflexivity|reflexivity|reflexivity|reflexivity| |].
  - change (map_Forall (λ _ a, Float64.fraction a = true) tie).
    apply (bool_decide_unpack _). vm_compute. exact I.
  - apply Hreturn. vm_compute. discriminate.
Defined.

Lemma DefaultVersion_missing_module :
  DefaultVersion (fake (inl manual10) (inr notFound) noResponse) "missing-module" adminProc
  = Done ("", Some (ErrorString "module: Module 'missing-module' not found"))
      (sent adminProc
         [NewService "appengine-modules-api-go-client/get_default_version";
          ServicesGet "appengine-modules-api-go-client/get_default_version"
            "test-project" "missing-module"]).
Proof.
  destruct (DefaultVersion_fetch_failure
              (fake (inl manual10) (inr notFound) noResponse) "missing-module"
              adminProc notFound)
    as (err & Hrun & Hnotfound & _); [reflexivity|reflexivity|reflexivity|].
  rewrite Hrun, (Hnotfound "Not Found" eq_refl). reflexivity.
Defined.

Lemma DefaultVersion_empty_map :
  DefaultVersion (fake (inl manual10) (inl (serviceOf ∅)) noResponse) "default" adminProc
  = Done ("", Some (ErrorString
                 "module: could not determine default version for module 'default'"))
      (sent adminProc
         [NewService "appengine-modules-api-go-client/get_default_version";
          ServicesGet "appengine-modules-api-go-client/get_default_version"
            "test-project" "default"]).
Proof.
  apply (DefaultVersion_no_allocations
           (fake (inl manual10) (inl (serviceOf ∅)) noResponse) "default" adminProc
           (serviceOf ∅)); [reflexivity|reflexivity|reflexivity|].
  right. right. reflexivity.
Defined.

Lemma oneFull_any_order :
  selectVersion (fake (inl manual10) (inl (serviceOf oneFull)) noResponse) (serviceOf oneFull)
  = selectVersion (reversed (fake (inl manual10) (inl (serviceOf oneFull)) noResponse))
      (serviceOf oneFull).
Proof.
  destruct (DefaultVersion_order_independent (serviceOf oneFull) oneFull) as [_ Hany].
  - reflexivity.
  - intros v1 a1 v2 a2 H1 H2. revert v2 a2 H2. revert v1 a1 H1.
    change (map_Forall (λ v1 a1, map_Forall (λ v2 a2,
      Float64.eq a1 Float64.one = true → Float64.eq a2 Float64.one = true → v1 = v2)
      oneFull) oneFull).
    apply (bool_decide_unpack _). vm_compute. exact I.
  - apply Hany.
Defined.

Lemma NumInstancesLegacy_count3 :
  NumInstancesLegacy (fake (inl manual10) (inr notFound) count3)
    "test-module" "test-version" legacyProc
  = Done (3%Z, None)
      (sent legacyProc
         [RpcCall "modules" "GetNumInstances"
            (pb.GetNumInstancesRequest (Some "test-module") (Some "test-version"))]).
Proof.
  destruct (NumInstancesLegacy_dereference
              (fake (inl manual10) (inr notFound) count3)
              "test-module" "test-version" legacyProc count3) as (_ & _ & Hcount).
  - reflexivity.
  - apply (Hcount 3%Z). reflexivity.
Defined.

Lemma projectID_appProc : projectID appProc = "test-project".
Proof.
  destruct (getProjectID_resolution appProc) as (_ & _ & _ & Hderive).
  destruct (Hderive eq_refl "s" "google.com:test-project") as [_ Hdomain].
  - reflexivity.
  - simpl. split; [discriminate|exact I].
  - apply (Hdomain "google.com" "test-project"); [reflexivity|].
    simpl. repeat split; discriminate.
Defined.

Lemma SetNumInstances_patch :
  SetNumInstances (fake (inl manual10) (inr notFound) noResponse)
    "default" "v1" 10 adminProc
  = Done None
      (sent adminProc
         [NewService "appengine-modules-api-go-client/set_num_instances";
          VersionsPatch "appengine-modules-api-go-client/set_num_instances"
            "test-project" "default" "v1" (instancesUpdate 10) "manualScaling.instances"]).
Proof.
  destruct (mutating_calls_patch_one_field
              (fake (inl manual10) (inr notFound) noResponse) "default" "v1" 10 adminProc)
    as (Hset & _); [reflexivity|].
  destruct Hset as (update & mask & Hrun & -> & _ & -> & _); [reflexivity|].
  rewrite Hrun. reflexivity.
Defined.

Lemma Start_serving :
  ∃ err project module' version' update mask,
    Start (fake (inl manual10) (inr notFound) noResponse) "my-module" "v1" adminProc
    = Done err
        (sent adminProc
           [NewService (clientUserAgent OpStart);
            VersionsPatch (clientUserAgent OpStart) project module' version' update mask])
    ∧ admin.v_ServingStatus update = "SERVING".
Proof.
  destruct (serving_status_and_tokens
              (fake (inl manual10) (inr notFound) noResponse) "my-module" "v1" 0 adminProc)
    as (Hstart & _); [reflexivity|].
  apply Hstart. reflexivity.
Defined.

Lemma flag_switched_between_calls :
  path_taken (since adminProc
                (final (call (fake (inl manual10) (inr notFound) count3)
                          OpList "" "" 0 adminProc)))
  ≠ path_taken
      (since (final (Setenv "MODULES_USE_ADMIN_API" "false" adminProc))
         (final (call (fake (inl manual10) (inr notFound) count3) OpList "" "" 0
                   (final (Setenv "MODULES_USE_ADMIN_API" "false" adminProc))))).
Proof.
  destruct (path_reevaluated_on_each_call
              (fake (inl manual10) (inr notFound) count3) OpList OpList "" "" "" ""
              0 0 adminProc "false")
    as (_ & _ & _ & _ & Hdiffer).
  intros Hsame. apply Hdiffer; [vm_compute; discriminate|].
  etransitivity; [exact Hsame|]. reflexivity.
Defined.

End Witness.

(** * Further properties of module.go *)

(** Brings a call on the modern path to the answers of the collaborators. *)
Ltac run_invoke Hmodern :=
  unfold invoke; rewrite Trace.bind_unfold;
  unfold List, NumInstances, SetNumInstances, Versions, DefaultVersion, Start, Stop;
  rewrite (Run.bind_done _ _ _ _ _ Hmodern); cbn [negb];
  unfold setServingStatus; run_call;
  repeat first [rewrite decide_True by done | rewrite decide_False by done].

Lemma invoke_modern_trace
    (c : Ctx) (op : Operation) (module version : string) (instances : Z) (p : Proc) :
  modern p → client_ok c op →
  since p (final (invoke c op module version instances p))
  = [NewService (clientUserAgent op); adminRequest c p op module version instances].
Proof.
  intros Hmodern Hclient. unfold client_ok in Hclient.
  destruct op; run_invoke Hmodern;
    unfold clientUserAgent in Hclient; cbn [methodName] in Hclient; rewrite Hclient;
    run_call; repeat (answer; run_call);
    rewrite ?Run.sent_sent; cbn [final mret M_ret]; by rewrite Run.since_sent.
Qed.

Lemma final_invoke (c : Ctx) (op : Operation) (module version : string) (instances : Z)
    (p : Proc) :
  final (invoke c op module version instances p)
  = final (call c op module version instances p)
  ∧ panicked (invoke c op module version instances p)
    = panicked (call c op module version instances p).
Proof.
  destruct op; unfold invoke, call; rewrite !Trace.bind_unfold;
    match goal with |- context [match ?run with _ => _ end] => destruct run as [[]|] end;
    done.
Qed.

Lemma flag_cases (p : Proc) : modern p ∨ useAdminAPI p = Done false p.
Proof.
  unfold modern. rewrite Run.useAdminAPI_done.
  destruct (bool_decide _); [by left|by right].
Qed.

Lemma optional_field (s : string) : optional s = field s.
Proof. unfold optional. by destruct s. Qed.

(** Brings a call on the legacy path to the answer of the RPC service. *)
Ltac run_legacy Hlegacy :=
  unfold invoke; rewrite Trace.bind_unfold;
  unfold List, NumInstances, SetNumInstances, Versions, DefaultVersion, Start, Stop;
  rewrite (Run.bind_done _ _ _ _ _ Hlegacy); cbn [negb];
  unfold ListLegacy, NumInstancesLegacy, SetNumInstancesLegacy, VersionsLegacy,
    DefaultVersionLegacy, StartLegacy, StopLegacy;
  rewrite ?optional_field; run_call.

Lemma invoke_legacy_trace
    (c : Ctx) (op : Operation) (module version : string) (instances : Z) (p : Proc) :
  useAdminAPI p = Done false p →
  since p (final (invoke c op module version instances p))
  = [RpcCall "modules" (legacyMethod op) (legacyRequest op module version instances)].
Proof.
  intros Hlegacy.
  destruct op; run_legacy Hlegacy;
    cbn [legacyMethod legacyRequest];
    match goal with |- context [rpc ?c ?s ?m ?r] => destruct (rpc c s m r) as [res [err|]] end;
    try destruct (pb.res_Instances res);
    cbn [final mret M_ret panic]; by rewrite Run.since_sent.
Qed.

(** On the modern path a call first builds its client and then sends
    exactly one request to the Admin API: the read or the patch of its
    operation, made with the operation's user agent and addressed to the
    project resolved from the environment, the module (the current service
    when the argument is empty) and the version (the current version when it
    is empty).  When the client cannot be built nothing else is sent. *)
Theorem modern_call_sends_one_request
    (c : Ctx) (op : Operation) (module version : string) (instances : Z) (p : Proc) :
  modern p →
  since p (final (invoke c op module version instances p))
  = NewService (clientUserAgent op)
    :: (if decide (client_ok c op)
        then [adminRequest c p op module version instances] else []).
Proof.
  intros Hmodern. case_decide as Hclient.
  - by apply invoke_modern_trace.
  - destruct (final_invoke c op module version instances p) as [-> _].
    by apply call_without_client.
Qed.

(** On the legacy path a call sends exactly one RPC, to the service
    "modules", with the method of its operation, and leaves the environment
    as it is.  An empty module or version argument is not resolved: the
    field is left out of the request.  The instance count is always
    present. *)
Theorem legacy_call_sends_one_rpc
    (c : Ctx) (op : Operation) (module version : string) (instances : Z) (p : Proc) :
  useAdminAPI p = Done false p →
  since p (final (invoke c op module version instances p))
  = [RpcCall "modules" (legacyMethod op) (legacyRequest op module version instances)]
  ∧ environ (final (invoke c op module version instances p)) = environ p.
Proof.
  intros Hlegacy. split.
  - by apply invoke_legacy_trace.
  - destruct (final_invoke c op module version instances p) as [-> _].
    by destruct (call_legacy c op module version instances p Hlegacy) as (? & ? & _ & ?).
Qed.

(** On the legacy path the error of the RPC is returned as it is.  A call
    panics in one case only: NumInstances, when the RPC succeeds with a
    response that has no instance count. *)
Theorem legacy_error_verbatim
    (c : Ctx) (op : Operation) (module version : string) (instances : Z) (p : Proc)
    (res : pb.Response) (err : option error) :
  useAdminAPI p = Done false p →
  rpc c "modules" (legacyMethod op) (legacyRequest op module version instances)
    = (res, err) →
  match invoke c op module version instances p with
  | Done r _ => errorOf r = err
  | Panic _ => op = OpNumInstances ∧ err = None ∧ pb.res_Instances res = None
  end.
Proof.
  intros Hlegacy Hrpc.
  destruct op; cbn [legacyMethod legacyRequest] in Hrpc; run_legacy Hlegacy;
    rewrite Hrpc; try done.
  destruct err as [err|]; [done|].
  by destruct (pb.res_Instances res).
Qed.

(** Compares two runs of a call on the legacy path. *)
Ltac observe_legacy Hlegacy Hlegacy' :=
  unfold observe;
  match goal with |- context [invoke _ ?op _ _ _ _] => destruct op end;
  run_legacy Hlegacy; run_legacy Hlegacy';
  match goal with |- context [rpc ?c ?s ?m ?r] => destruct (rpc c s m r) as [? [?|]] end;
  try match goal with
      | |- context [pb.res_Instances ?r] => destruct (pb.res_Instances r)
      end;
  cbn [final mret M_ret panic]; rewrite !Run.since_sent.

(** The legacy path reads nothing of the environment but the flag: in two
    states that both select it, a call returns the same result and sends the
    same request. *)
Theorem legacy_ignores_environment
    (c : Ctx) (op : Operation) (module version : string) (instances : Z) (p p' : Proc) :
  useAdminAPI p = Done false p → useAdminAPI p' = Done false p' →
  observe p (invoke c op module version instances p)
  = observe p' (invoke c op module version instances p').
Proof.
  intros Hlegacy Hlegacy'. by observe_legacy Hlegacy Hlegacy'.
Qed.

Lemma app_empty (s : string) : s +:+ "" = s.
Proof.
  induction s as [|a s IH]; [done|].
  change (String a (s +:+ "") = String a s). by rewrite IH.
Qed.

Lemma Errorf_client (cause : string) :
  Errorf "module: could not create admin service: %v" cause
  = ErrorString ("module: could not create admin service: " +:+ cause).
Proof.
  transitivity (ErrorString ("module: could not create admin service: "
                             +:+ (cause +:+ ""))); [reflexivity|].
  by rewrite app_empty.
Qed.

(** On the modern path, when the Admin API client cannot be built, every
    operation returns no value and the error
    "module: could not create admin service: <cause>", and sends nothing to
    the Admin API. *)
Theorem client_failure_is_wrapped
    (c : Ctx) (op : Operation) (module version : string) (instances : Z) (p : Proc)
    (err : error) :
  modern p → admin_NewService c (clientUserAgent op) = Some err →
  ∃ r,
    invoke c op module version instances p
    = Done r (sent p [NewService (clientUserAgent op)])
    ∧ errorOf r
      = Some (ErrorString ("module: could not create admin service: " +:+ Error c err))
    ∧ no_value r = true.
Proof.
  intros Hmodern Hnew.
  destruct op; run_invoke Hmodern;
    unfold clientUserAgent in Hnew; cbn [methodName] in Hnew; rewrite Hnew;
    cbn [mret M_ret]; rewrite Errorf_client;
    (eexists; split_and!; [reflexivity|reflexivity|reflexivity]).
Qed.

(** On the modern path a failed read is returned as it is by List, Versions
    and NumInstances, a 404 included, with no value; only DefaultVersion
    rewrites a 404. *)
Theorem modern_read_error_verbatim
    (c : Ctx) (module version : string) (p : Proc) (err : error) :
  modern p →
  (client_ok c OpList → Services_List c (projectID p) = inr err →
   result ([], None) (List c p) = ([], Some err))
  ∧ (client_ok c OpVersions →
     Versions_List c (projectID p) (moduleOrDefault p module) = inr err →
     result ([], None) (Versions c module p) = ([], Some err))
  ∧ (client_ok c OpNumInstances →
     Versions_Get c (projectID p) (moduleOrDefault p module) (versionOrDefault c version)
       = inr err →
     result (0%Z, None) (NumInstances c module version p) = (0%Z, Some err)).
Proof.
  intros Hmodern. split_and!; intros Hclient Hfail.
  - unfold List. run_modern Hmodern Hclient. by rewrite Hfail.
  - unfold Versions. run_modern Hmodern Hclient. by rewrite Hfail.
  - unfold NumInstances, versionOrDefault in *. run_modern Hmodern Hclient.
    by rewrite Hfail.
Qed.

(** On the modern path List and Versions return the ids of the resources
    in the order of the answer of the Admin API, one for each resource:
    nothing is sorted, dropped or merged. *)
Theorem modern_lists_keep_order
    (c : Ctx) (module : string) (p : Proc) :
  modern p →
  (client_ok c OpList → ∀ services, Services_List c (projectID p) = inl services →
   ∃ names, result ([], None) (List c p) = (names, None)
            ∧ length names = length services
            ∧ ∀ i, names !! i = admin.s_Id <$> services !! i)
  ∧ (client_ok c OpVersions → ∀ versions,
     Versions_List c (projectID p) (moduleOrDefault p module) = inl versions →
     ∃ names, result ([], None) (Versions c module p) = (names, None)
              ∧ length names = length versions
              ∧ ∀ i, names !! i = admin.v_Id <$> versions !! i).
Proof.
  intros Hmodern. split; intros Hclient resources Hanswer.
  - unfold List. run_modern Hmodern Hclient. rewrite Hanswer.
    eexists. split; [reflexivity|]. split; [apply length_map|].
    intros i. apply list_lookup_fmap.
  - unfold Versions. run_modern Hmodern Hclient. rewrite Hanswer.
    eexists. split; [reflexivity|]. split; [apply length_map|].
    intros i. apply list_lookup_fmap.
Qed.

Lemma moduleOrDefault_nonempty (p : Proc) (module : string) :
  moduleOrDefault p module ≠ "".
Proof. unfold moduleOrDefault. repeat case_decide; done. Qed.

Lemma moduleOrDefault_idem (p : Proc) (module : string) :
  moduleOrDefault p (moduleOrDefault p module) = moduleOrDefault p module.
Proof.
  unfold moduleOrDefault at 1.
  by rewrite decide_False by apply moduleOrDefault_nonempty.
Qed.

Lemma moduleOrDefault_sent (p : Proc) (rs : list Outbound) (module : string) :
  moduleOrDefault (sent p rs) module = moduleOrDefault p module.
Proof. reflexivity. Qed.

Lemma versionOrDefault_idem (c : Ctx) (version : string) :
  (if decide (versionOrDefault c version = "") then VersionID c
   else versionOrDefault c version) = versionOrDefault c version.
Proof. unfold versionOrDefault. repeat case_decide; congruence. Qed.

(** On the modern path an empty module argument stands for the current
    service (GAE_SERVICE, "default" when that is empty) and an empty version
    argument for the current version: a call with empty arguments is the call
    with these names written out, in its result and in what it sends. *)
Theorem modern_empty_arguments_are_defaults
    (c : Ctx) (op : Operation) (module version : string) (instances : Z) (p : Proc) :
  modern p →
  invoke c op module version instances p
  = invoke c op (moduleOrDefault p module) (versionOrDefault c version) instances p.
Proof.
  intros Hmodern.
  destruct op.
  all: match goal with
       | |- invoke _ ?op _ _ _ _ = _ =>
           destruct (admin_NewService c (clientUserAgent op)) as [err|] eqn:Hnew;
           unfold clientUserAgent in Hnew; cbn [methodName] in Hnew
       end.
  all: match goal with
       | |- ?given = ?resolved =>
           eassert (given = _) as Hgiven
             by (run_invoke Hmodern; rewrite Hnew; run_call; reflexivity);
           eassert (resolved = _) as Hresolved
             by (run_invoke Hmodern; rewrite Hnew; run_call; reflexivity)
       end.
  all: rewrite Hgiven, Hresolved.
  all: rewrite ?moduleOrDefault_sent, ?moduleOrDefault_idem, ?versionOrDefault_idem.
  all: reflexivity.
Qed.

(** Every request a call sends to the Admin API names the project resolved
    from the environment and, when it names a module, a module that is not
    empty. *)
Theorem modern_requests_are_scoped
    (c : Ctx) (op : Operation) (module version : string) (instances : Z) (p : Proc)
    (r : Outbound) :
  modern p →
  r ∈ since p (final (invoke c op module version instances p)) →
  moduleOf r ≠ Some ""
  ∧ (∀ project, projectOf r = Some project → project = projectID p).
Proof.
  intros Hmodern Hr.
  destruct (decide (client_ok c op)) as [Hclient|Hclient].
  - rewrite (invoke_modern_trace c op module version instances p) in Hr by done.
    apply elem_of_cons in Hr as [->|Hr]; [done|].
    apply list_elem_of_singleton in Hr as ->.
    pose proof (moduleOrDefault_nonempty p module) as Hne.
    destruct op; simpl; split; try done; try congruence.
  - destruct (final_invoke c op module version instances p) as [Hfinal _].
    rewrite Hfinal, (call_without_client c op module version instances p) in Hr by done.
    by apply list_elem_of_singleton in Hr as ->.
Qed.

(** The operations that read never change anything: on either path a call
    of List, NumInstances, Versions or DefaultVersion sends no patch and no
    RPC of a method that sets, starts or stops. *)
Theorem reads_send_no_update
    (c : Ctx) (op : Operation) (module version : string) (instances : Z) (p : Proc)
    (r : Outbound) :
  reads op = true →
  r ∈ since p (final (invoke c op module version instances p)) →
  is_patch r = false
  ∧ ∀ service method req, r = RpcCall service method req →
      method ∉ ["SetNumInstances"; "StartModule"; "StopModule"].
Proof.
  intros Hreads Hr.
  destruct (flag_cases p) as [Hmodern|Hlegacy].
  - destruct (decide (client_ok c op)) as [Hclient|Hclient].
    + rewrite (invoke_modern_trace c op module version instances p) in Hr
        by done.
      apply elem_of_cons in Hr as [->|Hr]; [done|].
      apply list_elem_of_singleton in Hr as ->.
      by destruct op.
    + destruct (final_invoke c op module version instances p) as [Hfinal _].
      rewrite Hfinal, (call_without_client c op module version instances p) in Hr
        by done.
      by apply list_elem_of_singleton in Hr as ->.
  - rewrite (invoke_legacy_trace c op module version instances p) in Hr by done.
    apply list_elem_of_singleton in Hr as ->. split; [done|].
    intros service method req [= _ <- _].
    destruct op; try done; cbn [legacyMethod];
      apply (bool_decide_unpack _); vm_compute; exact I.
Qed.

(** The version the loop leaves in [retVersion] is the one it started with
    or the id of an entry. *)
Lemma scan_result_member (l : list (string * spec_float)) : ∀ rv ma,
  (scanAllocations l rv ma).1 = rv ∨ ∃ a, ((scanAllocations l rv ma).1, a) ∈ l.
Proof.
  induction l as [|[v a] rest IH]; intros rv ma; [by left|].
  rewrite ScanFacts.scan_cons.
  destruct (Float64.eq a Float64.one); [right; exists a; simpl; by left|].
  assert (∀ rv' ma', rv' = rv ∨ rv' = v →
            (scanAllocations rest rv' ma').1 = rv
            ∨ ∃ a0, ((scanAllocations rest rv' ma').1, a0) ∈ (v, a) :: rest) as Hstep.
  { intros rv' ma' Hrv'. destruct (IH rv' ma') as [Hsame|(a0 & Hin)].
    - rewrite Hsame. destruct Hrv' as [->| ->]; [by left|].
      right. exists a. by left.
    - right. exists a0. by right. }
  repeat case_match; apply Hstep; auto.
Qed.

Lemma selectVersion_member (c : Ctx) (service : admin.Service) :
  selectVersion c service = "" ∨ is_Some (allocationsOf service !! selectVersion c service).
Proof.
  unfold selectVersion, allocationsOf.
  destruct (admin.s_Split service) as [[[allocations|]]|]; [|by left..]. simpl.
  destruct (scan_result_member (range_order c allocations) "" Float64.minus_one)
    as [Hempty|(a & Hin)]; [by left|right].
  apply (range_order_elem c) in Hin. by exists a.
Qed.

(** On the modern path DefaultVersion returns either a version and no
    error or an error and no version, never both and never neither; a
    version it returns is a key of the allocation map of the fetched
    service. *)
Theorem DefaultVersion_version_or_error
    (c : Ctx) (module : string) (p p' : Proc) (v : string) (err : option error) :
  modern p →
  DefaultVersion c module p = Done (v, err) p' →
  (err = None ↔ v ≠ "")
  ∧ (err = None → ∃ service,
       Services_Get c (projectID p) (moduleOrDefault p module) = inl service
       ∧ is_Some (allocationsOf service !! v)).
Proof.
  intros Hmodern. unfold DefaultVersion.
  rewrite (Run.bind_done _ _ _ _ _ Hmodern); cbn [negb]. run_call.
  destruct (admin_NewService c _) as [e|]; run_call.
  { intros [= <- <- _]. split; [split; done|done]. }
  destruct (Services_Get c (projectID p) (moduleOrDefault p module))
    as [service|e] eqn:Hget.
  - destruct (decide (selectVersion c service = "")) as [Hsel|Hsel].
    + intros [= <- <- _]. split; [split; done|done].
    + intros [= <- <- _]. split; [split; done|]. intros _. exists service.
      split; [done|]. by destruct (selectVersion_member c service).
  - case_match; intros [= <- <- _]; (split; [split; done|done]).
Qed.

(** When exactly one version has allocation 1.0 it is selected, whatever
    the other allocations are, greater than 1.0 or NaN included, and
    whatever the order of the visit. *)
Theorem full_allocation_wins
    (c : Ctx) (service : admin.Service) (allocations : gmap string spec_float)
    (v : string) (a : spec_float) :
  admin.s_Split service = Some {| admin.ts_Allocations := Some allocations |} →
  allocations !! v = Some a → Float64.eq a Float64.one = true →
  (∀ v' a', allocations !! v' = Some a' → Float64.eq a' Float64.one = true → v' = v) →
  selectVersion c service = v.
Proof.
  intros Hsplit Hv Hfull Honly. unfold selectVersion. rewrite Hsplit. simpl.
  apply (ScanOrder.scan_single_full _ v a); [by apply (range_order_elem c)|done|].
  intros v' a' Hin. apply Honly. by apply (range_order_elem c).
Qed.

(** When several versions have allocation 1.0 the result depends on the
    order of the visit: each of them is the one selected under some
    enumeration of the map. *)
Theorem any_full_allocation_can_win
    (allocations : gmap string spec_float) (v : string) (a : spec_float) :
  allocations !! v = Some a → Float64.eq a Float64.one = true →
  ∃ entries, entries ≡ₚ map_to_list allocations
             ∧ (scanAllocations entries "" Float64.minus_one).1 = v.
Proof.
  intros Hv Hfull. exists ((v, a) :: map_to_list (delete v allocations)). split.
  - by apply map_to_list_delete.
  - rewrite ScanFacts.scan_cons. by rewrite Hfull.
Qed.

Lemma scan_nothing_above (l : list (string * spec_float)) :
  Forall (λ e, Float64.gt e.2 Float64.minus_one = false) l →
  scanAllocations l "" Float64.minus_one = ("", Float64.minus_one).
Proof.
  induction l as [|[v a] rest IH]; [done|].
  intros [Ha Hrest]%Forall_cons. simpl in Ha. rewrite ScanFacts.scan_cons.
  assert (Float64.eq a Float64.one = false) as -> by float_order.
  rewrite Ha, StringOrder.ltb_empty. case_match; by apply IH.
Qed.

(** An allocation has to be above -1.0, the initial value of [maxAlloc], to
    be selected: when no allocation of the fetched service is (the map is
    empty or absent, or holds only NaN and values of at most -1.0),
    DefaultVersion returns the error
    "module: could not determine default version for module '<module>'". *)
Theorem DefaultVersion_nothing_above_initial
    (c : Ctx) (module : string) (p : Proc) (service : admin.Service) :
  modern p → client_ok c OpDefaultVersion →
  Services_Get c (projectID p) (moduleOrDefault p module) = inl service →
  (∀ v a, allocationsOf service !! v = Some a →
          Float64.gt a Float64.minus_one = false) →
  result ("", None) (DefaultVersion c module p)
  = ("", Some (ErrorString
                 ("module: could not determine default version for module '"
                  +:+ moduleOrDefault p module +:+ "'"))).
Proof.
  intros Hmodern Hclient Hget Hnone.
  rewrite (DefaultVersion_fetched c module p service) by done.
  assert (selectVersion c service = "") as ->; [|done].
  unfold selectVersion, allocationsOf in *.
  destruct (admin.s_Split service) as [[[allocations|]]|]; [|done..]. simpl in *.
  rewrite scan_nothing_above; [done|].
  apply Forall_forall. intros [v a] Hin. apply (range_order_elem c) in Hin.
  by apply (Hnone v a).
Qed.

(** NumInstances never returns a count together with an error: on either
    path, whenever the error is not nil the count is zero. *)
Theorem NumInstances_error_means_zero
    (c : Ctx) (module version : string) (p p' : Proc) (count : Z) (err : error) :
  NumInstances c module version p = Done (count, Some err) p' → count = 0%Z.
Proof.
  destruct (flag_cases p) as [Hmodern|Hlegacy]; unfold NumInstances.
  - rewrite (Run.bind_done _ _ _ _ _ Hmodern); cbn [negb]. run_call.
    repeat (answer; run_call); by intros [= <- _].
  - rewrite (Run.bind_done _ _ _ _ _ Hlegacy); cbn [negb].
    unfold NumInstancesLegacy. run_call.
    destruct (rpc c _ _ _) as [res [e|]]; [by intros [= <- _]|].
    destruct (pb.res_Instances res); [by intros [= _ ?]|done].
Qed.

(** SetNumInstances checks nothing about the instance count and hands it
    on unchanged, a negative count included: on the modern path as
    ManualScaling.Instances of the Version given to Patch, on the legacy path
    as the instances field of the request.  (How the client library writes
    the Version into the body of the request is outside this model.) *)
Theorem SetNumInstances_passes_count_unchecked
    (c : Ctx) (module version : string) (instances : Z) (p : Proc) :
  GoInt.in_int64 instances →
  (modern p → client_ok c OpSetNumInstances →
   since p (final (SetNumInstances c module version instances p))
   = [NewService (clientUserAgent OpSetNumInstances);
      VersionsPatch (clientUserAgent OpSetNumInstances) (projectID p)
        (moduleOrDefault p module) (versionOrDefault c version)
        (instancesUpdate instances) "manualScaling.instances"])
  ∧ (useAdminAPI p = Done false p →
     since p (final (SetNumInstances c module version instances p))
     = [RpcCall "modules" "SetNumInstances"
          (pb.SetNumInstancesRequest (field module) (field version) (Some instances))]).
Proof.
  intros Hrange. split.
  - intros Hmodern Hclient. rewrite SetNumInstances_modern by done.
    unfold GoInt.int64_of_int. rewrite wrap64_id by done.
    cbn [final]. by rewrite Run.since_sent.
  - intros Hlegacy. unfold SetNumInstances.
    rewrite (Run.bind_done _ _ _ _ _ Hlegacy); cbn [negb].
    unfold SetNumInstancesLegacy. rewrite !optional_field. run_call.
    unfold GoInt.int64_of_int. rewrite wrap64_id by done.
    destruct (rpc c _ _ _) as [res e]. cbn [final mret M_ret].
    by rewrite Run.since_sent.
Qed.

Lemma app_assoc_string (s t u : string) : (s +:+ t) +:+ u = s +:+ (t +:+ u).
Proof.
  induction s as [|a s IH]; [done|].
  change (String a ((s +:+ t) +:+ u) = String a (s +:+ (t +:+ u))). by rewrite IH.
Qed.

Lemma split_at_byte (b : ascii) (s : string) :
  free_of b s ∨ ∃ pre post, s = pre +:+ String b post ∧ free_of b pre.
Proof.
  induction s as [|a s IH]; [by left|].
  destruct (decide (a = b)) as [->|Hne].
  - right. by exists "", s.
  - destruct IH as [Hfree|(pre & post & -> & Hfree)].
    + left. by split.
    + right. exists (String a pre), post. split; [done|by split].
Qed.

(** What follows the first occurrence of [b] in [s], as the code computes
    it, is a suffix of [s]. *)
Lemma slice_after_index (b : ascii) (s : string) :
  GoStrings.Index s (String b "") ≠ (-1)%Z →
  ∃ pre, s = pre +:+ GoStrings.slice_from s (GoStrings.Index s (String b "") + 1).
Proof.
  intros Hfound. destruct (split_at_byte b s) as [Hfree|(pre & post & -> & Hfree)].
  - by rewrite StringFacts.Index_free in Hfound.
  - rewrite StringFacts.Index_first, StringFacts.slice_after by done.
    exists (pre +:+ String b ""). by rewrite app_assoc_string.
Qed.

(** When GOOGLE_CLOUD_PROJECT is empty the project id is a suffix of the
    application id: the resolution only ever removes a prefix. *)
Theorem derived_projectID_is_suffix (p : Proc) :
  getenv p "GOOGLE_CLOUD_PROJECT" = "" →
  ∃ pre, applicationID p = pre +:+ projectID p.
Proof.
  intros Hunset. rewrite projectID_unfold, Hunset. rewrite decide_True by done.
  cbv zeta.
  destruct (decide (GoStrings.Index (applicationID p) "~" ≠ (-1)%Z)) as [Htilde|Htilde].
  - destruct (slice_after_index "~" _ Htilde) as [pre Hpre].
    set (after := GoStrings.slice_from (applicationID p)
                    (GoStrings.Index (applicationID p) "~" + 1)) in *.
    destruct (decide (GoStrings.Index after ":" ≠ (-1)%Z)) as [Hcolon|Hcolon].
    + destruct (slice_after_index ":" _ Hcolon) as [pre' Hpre'].
      exists (pre +:+ pre'). by rewrite app_assoc_string, <- Hpre', <- Hpre.
    + by exists pre.
  - exists (applicationID p).
    change (GoStrings.Index "" ":") with (-1)%Z.
    rewrite decide_False by (intros H; by apply H). by rewrite app_empty.
Qed.

Lemma after_byte_free (b : ascii) (s : string) :
  free_of b s → after_byte b s = None.
Proof.
  induction s as [|a s IH]; [done|]. intros [Hne Hfree]. simpl.
  rewrite (proj2 (Ascii.eqb_neq a b)) by done. by apply IH.
Qed.

Lemma after_byte_first (b : ascii) (pre post : string) :
  free_of b pre → after_byte b (pre +:+ String b post) = Some post.
Proof.
  induction pre as [|a pre IH].
  - intros _. simpl. by rewrite Ascii.eqb_refl.
  - intros [Hne Hfree].
    change (after_byte b (String a (pre +:+ String b post)) = Some post). simpl.
    rewrite (proj2 (Ascii.eqb_neq a b)) by done. by apply IH.
Qed.

(** The code agrees with the resolution of the specification on every
    environment whose application id contains a tilde, and whenever the
    explicit variable is set. *)
Lemma specProjectID_agrees (p : Proc) :
  getenv p "GOOGLE_CLOUD_PROJECT" ≠ "" ∨ ¬ free_of "~" (applicationID p) →
  projectID p = specProjectID p.
Proof.
  intros Hcase. rewrite projectID_unfold. unfold specProjectID.
  destruct (decide (getenv p "GOOGLE_CLOUD_PROJECT" = "")) as [Hunset|Hset]; [|done].
  destruct Hcase as [Hset|Htilde]; [done|].
  destruct (split_at_byte "~" (applicationID p)) as [Hfree|(pre & post & -> & Hpre)];
    [done|].
  rewrite (StringFacts.Index_first "~" pre post Hpre).
  rewrite (StringFacts.slice_after "~" pre post).
  rewrite (decide_True (P := Z.of_nat (String.length pre) ≠ (-1)%Z)) by lia. cbv zeta.
  unfold strip_through at 2. rewrite (after_byte_first "~" pre post Hpre). simpl default.
  destruct (split_at_byte ":" post) as [Hfree|(domain & rest & -> & Hdomain)].
  - rewrite (StringFacts.Index_free ":" _ Hfree). unfold strip_through.
    rewrite (after_byte_free ":" _ Hfree). by case_decide.
  - rewrite (StringFacts.Index_first ":" domain rest Hdomain).
    rewrite (StringFacts.slice_after ":" domain rest).
    unfold strip_through. rewrite (after_byte_first ":" domain rest Hdomain).
    case_decide; [done|lia].
Qed.

(** C8 (the code departs from the claim).  Project-id resolution follows
    the specification, the explicit variable or else the application id with
    everything up to and including a tilde and then a domain prefix
    stripped, on every environment but those whose application id has no
    tilde: there the code drops the application id and returns the empty
    string.  For the application id "google.com:project-id", the example of
    the comment in getProjectID, the code returns "" where the specification
    gives "project-id". *)
Theorem getProjectID_drops_id_without_tilde :
  (∀ p, projectID p = specProjectID p
        ∨ (getenv p "GOOGLE_CLOUD_PROJECT" = "" ∧ free_of "~" (applicationID p)
           ∧ projectID p = ""))
  ∧ getProjectID Fixtures.commentProc = Done "" Fixtures.commentProc
  ∧ specProjectID Fixtures.commentProc = "project-id".
Proof.
  split_and!.
  - intros p.
    destruct (decide (getenv p "GOOGLE_CLOUD_PROJECT" = "")) as [Hunset|Hset].
    + destruct (split_at_byte "~" (applicationID p)) as [Hfree|(pre & post & Happ & Hpre)].
      * right. split_and!; [done|done|].
        rewrite projectID_unfold, Hunset. simpl.
        rewrite (StringFacts.Index_free "~" _ Hfree). by simpl.
      * left. apply specProjectID_agrees. right. rewrite Happ. clear Happ.
        induction pre as [|a pre IH]; simpl.
        -- by intros [? _].
        -- intros [_ Hrest]. destruct Hpre as [_ Hpre]. by apply IH.
    + left. apply specProjectID_agrees. by left.
  - reflexivity.
  - reflexivity.
Qed.

Module HandlerFacts.
Import main.

Lemma lines_no_error (f : string → string) (l : list string) :
  Forall (λ o, is_error o = false) (map (λ m, Fprintf (f m)) l).
Proof. apply Forall_forall. intros o (m & -> & _)%list_elem_of_fmap. done. Qed.

Lemma lines_to_response (f : string → string) (l : list string) :
  List.filter to_response (map (λ m, Fprintf (f m)) l) = map (λ m, Fprintf (f m)) l.
Proof. induction l as [|m l IH]; [done|]. simpl. by rewrite IH. Qed.

End HandlerFacts.

(** Whenever the handler returns, it has called [http.Error] at most once,
    with the code argument 500, and has written nothing after that call. *)
Theorem handler_error_is_last_write
    (c : Ctx) (currentMod : string) (p p' : Proc) (out : list main.Output) :
  main.handler c currentMod p = Done out p' →
  Forall (λ o, main.is_error o = false) out
  ∨ ∃ body text, out = body ++ [main.HttpError text 500]
                 ∧ Forall (λ o, main.is_error o = false) body.
Proof.
  unfold main.handler. rewrite Trace.bind_unfold.
  destruct (List c p) as [[modules [lerr|]] p1|]; [| |done].
  { intros [= <- _]. right. eexists [], _. split; [reflexivity|constructor]. }
  rewrite Trace.bind_unfold.
  destruct (DefaultVersion c currentMod p1) as [[defaultVer derr] p2|]; [|done].
  rewrite Trace.bind_unfold.
  destruct (Versions c "default" p2) as [[versions [verr|]] p3|]; [| |done].
  { intros Hrun. right. cbv beta iota delta [mret M_ret] in Hrun.
    match type of Hrun with
    | Done (?body ++ [main.HttpError ?text _]) _ = _ => exists body, text
    end.
    split; [symmetry; exact (f_equal (result []) Hrun)|].
    rewrite ?Forall_app, ?Forall_cons, ?Forall_singleton.
    split_and!; try done. apply HandlerFacts.lines_no_error. }
  rewrite Trace.bind_unfold.
  destruct (SetNumInstances c _ _ _ p3) as [[serr|] p4|]; [| |done].
  all: intros Hrun; left; cbv beta iota delta [mret M_ret] in Hrun.
  all: eassert (out = _) as -> by (symmetry; exact (f_equal (result []) Hrun)).
  all: cbn [result].
  all: rewrite ?Forall_app, ?Forall_cons, ?Forall_singleton, ?Forall_nil.
  all: split_and?; try done; apply HandlerFacts.lines_no_error.
Qed.

(** The handler stops at the first failure of List or of Versions: it calls
    [http.Error] with the text of the error and the code 500 and calls no
    further operation, so that the instance count is not set.  After a
    failure of List nothing else has been written and the status of the
    response is 500.  After a failure of Versions the lines of the modules
    and of the default version have already been written, so the response
    keeps the status 200. *)
Theorem handler_stops_at_failure (c : Ctx) (currentMod : string) (p : Proc) :
  (∀ modules err p1,
     List c p = Done (modules, Some err) p1 →
     ∃ out,
       main.handler c currentMod p = Done out p1
       ∧ out = [main.HttpError ("Error listing modules: " +:+ Error c err) 500]
       ∧ main.statusOf out = 500%Z)
  ∧ (∀ modules p1 defaultVer derr p2 versions err p3,
       List c p = Done (modules, None) p1 →
       DefaultVersion c currentMod p1 = Done (defaultVer, derr) p2 →
       Versions c "default" p2 = Done (versions, Some err) p3 →
       ∃ body out,
         main.handler c currentMod p = Done out p3
         ∧ out = body ++ [main.HttpError ("Could not list versions: " +:+ Error c err) 500]
         ∧ Forall (λ o, main.is_error o = false) body
         ∧ body ≠ []
         ∧ main.statusOf out = 200%Z).
Proof.
  split.
  - intros modules err p1 HList. unfold main.handler.
    rewrite (Run.bind_done _ _ _ _ _ HList).
    change (GoStrings.Sprintf "Error listing modules: %v" (Error c err))
      with ("Error listing modules: " +:+ (Error c err +:+ "")).
    rewrite app_empty. eexists. by split_and!.
  - intros modules p1 defaultVer derr p2 versions err p3 HList HDefault HVersions.
    unfold main.handler.
    rewrite (Run.bind_done _ _ _ _ _ HList), (Run.bind_done _ _ _ _ _ HDefault),
      (Run.bind_done _ _ _ _ _ HVersions).
    eexists _, _. split; [reflexivity|]. split; [reflexivity|]. split_and!.
    + rewrite ?Forall_app, ?Forall_cons, ?Forall_singleton.
      split_and!; try done. apply HandlerFacts.lines_no_error.
    + done.
    + reflexivity.
Qed.

(** When List and Versions succeed the handler answers with the modules,
    the default version of the current module and the versions of the module
    "default", and then sets the instance count.  A failure of
    DefaultVersion is shown as the version "unknown"; a failure of
    SetNumInstances is printed to the standard output only.  Neither is
    reported to the client as an error. *)
Theorem handler_masks_failures
    (c : Ctx) (currentMod : string) (p p1 p2 p3 p4 : Proc)
    (modules versions : list string) (defaultVer : string) (derr serr : option error) :
  List c p = Done (modules, None) p1 →
  DefaultVersion c currentMod p1 = Done (defaultVer, derr) p2 →
  Versions c "default" p2 = Done (versions, None) p3 →
  SetNumInstances c "bundled-services-mail-java-sdk-app" "20251016t135918" 5 p3
    = Done serr p4 →
  let response :=
    (main.Fprintf ("Modules:" +:+ main.newline)
     :: map (λ m, main.Fprintf ("- " +:+ m +:+ main.newline)) modules)
    ++ [main.Fprintf ("DefaultVersion "
                      +:+ (if derr is Some _ then "unknown" else defaultVer)
                      +:+ ":" +:+ main.newline)]
    ++ main.Fprintf ("Versions for module default:" +:+ main.newline)
       :: map (λ v, main.Fprintf ("- " +:+ v +:+ main.newline)) versions in
  main.handler c currentMod p
  = Done (response
          ++ (if serr is Some err
              then [main.Printf ("Scaling failed (expected if not manual scaling): "
                                 +:+ Error c err +:+ main.newline)]
              else [])) p4
  ∧ Forall (λ o, main.is_error o = false ∧ main.to_response o = true) response.
Proof.
  intros HList HDefault HVersions HSet response. split.
  - unfold main.handler.
    rewrite (Run.bind_done _ _ _ _ _ HList), (Run.bind_done _ _ _ _ _ HDefault),
      (Run.bind_done _ _ _ _ _ HVersions), (Run.bind_done _ _ _ _ _ HSet).
    unfold response. destruct serr as [err|], derr as [e|].
    all: cbn [mret M_ret]; f_equal; rewrite <- ?app_assoc, ?app_nil_r; reflexivity.
  - unfold response. rewrite ?Forall_app, ?Forall_cons, ?Forall_singleton.
    split_and!; try done.
    all: apply Forall_forall; by intros o (m & -> & _)%list_elem_of_fmap.
Qed.

(** * The further properties on the inputs of the test suite *)

Module Instance.
Import Fixtures.

Lemma Versions_sends_one_request :
  since adminProc (final (invoke listing OpVersions "" "" 0 adminProc))
  = [NewService "appengine-modules-api-go-client/get_versions";
     VersionsList "appengine-modules-api-go-client/get_versions" "test-project" "default"].
Proof.
  etransitivity;
    [apply (modern_call_sends_one_request listing OpVersions "" "" 0 adminProc);
     reflexivity|reflexivity].
Defined.

Lemma Start_sends_one_rpc :
  since legacyProc (final (invoke listing OpStart "test-module" "" 0 legacyProc))
  = [RpcCall "modules" "StartModule" (pb.StartModuleRequest (Some "test-module") None)].
Proof.
  etransitivity;
    [apply (legacy_call_sends_one_rpc listing OpStart "test-module" "" 0 legacyProc);
     reflexivity|reflexivity].
Defined.

Lemma legacy_Stop_error :
  errorOf (result (Status None) (invoke (failing notFound) OpStop "m" "v" 0 legacyProc))
  = Some notFound.
Proof.
  pose proof (legacy_error_verbatim (failing notFound) OpStop "m" "v" 0 legacyProc
                noResponse (Some notFound) eq_refl eq_refl) as Hverbatim.
  destruct (invoke (failing notFound) OpStop "m" "v" 0 legacyProc) as [r q|q].
  - exact Hverbatim.
  - destruct Hverbatim as [Hop _]. discriminate Hop.
Defined.

Lemma legacy_same_in_other_environment :
  observe legacyProc (invoke listing OpVersions "m" "" 0 legacyProc)
  = observe legacyProc' (invoke listing OpVersions "m" "" 0 legacyProc').
Proof.
  apply (legacy_ignores_environment listing OpVersions "m" "" 0 legacyProc legacyProc');
    reflexivity.
Defined.

Lemma List_without_client :
  ∃ r,
    invoke (clientless listing) OpList "" "" 0 adminProc
    = Done r (sent adminProc [NewService (clientUserAgent OpList)])
    ∧ errorOf r
      = Some (ErrorString ("module: could not create admin service: "
                           +:+ Error (clientless listing) (ErrorString "no credentials")))
    ∧ no_value r = true.
Proof.
  apply (client_failure_is_wrapped (clientless listing) OpList "" "" 0 adminProc
           (ErrorString "no credentials")); reflexivity.
Defined.

Lemma NumInstances_not_found :
  result (0%Z, None) (NumInstances (failing notFound) "default" "v3" adminProc)
  = (0%Z, Some notFound).
Proof.
  destruct (modern_read_error_verbatim (failing notFound) "default" "v3" adminProc notFound)
    as (_ & _ & Hcount); [reflexivity|].
  apply Hcount; reflexivity.
Defined.

Lemma List_keeps_order :
  ∃ names, result ([], None) (List listing adminProc) = (names, None)
           ∧ length names = 2
           ∧ ∀ i, names !! i
                  = admin.s_Id <$> [ {| admin.s_Id := "default"; admin.s_Split := None |};
                                     {| admin.s_Id := "backend-api"; admin.s_Split := None |} ]
                                   !! i.
Proof.
  destruct (modern_lists_keep_order listing "" adminProc) as [Hlist _]; [reflexivity|].
  destruct (Hlist eq_refl _ eq_refl) as (names & Hnames & Hlength & Hlookup).
  exists names. split_and!; [exact Hnames|exact Hlength|exact Hlookup].
Defined.

Lemma empty_arguments_are_defaults :
  invoke listing OpNumInstances "" "" 0 adminProc
  = invoke listing OpNumInstances "default" "test-version" 0 adminProc.
Proof.
  apply (modern_empty_arguments_are_defaults listing OpNumInstances "" "" 0 adminProc).
  reflexivity.
Defined.

Lemma Versions_request_is_scoped :
  moduleOf (VersionsList "appengine-modules-api-go-client/get_versions"
              "test-project" "default") ≠ Some ""
  ∧ ∀ project,
      projectOf (VersionsList "appengine-modules-api-go-client/get_versions"
                   "test-project" "default") = Some project →
      project = projectID adminProc.
Proof.
  apply (modern_requests_are_scoped listing OpVersions "" "" 0 adminProc).
  - reflexivity.
  - change (since adminProc (final (invoke listing OpVersions "" "" 0 adminProc)))
      with [NewService "appengine-modules-api-go-client/get_versions";
            VersionsList "appengine-modules-api-go-client/get_versions"
              "test-project" "default"].
    apply elem_of_cons. right. apply elem_of_cons. by left.
Defined.

Lemma List_sends_no_update :
  is_patch (ServicesList "appengine-modules-api-go-client/get_modules" "test-project")
  = false
  ∧ ∀ service method req,
      ServicesList "appengine-modules-api-go-client/get_modules" "test-project"
      = RpcCall service method req →
      method ∉ ["SetNumInstances"; "StartModule"; "StopModule"].
Proof.
  apply (reads_send_no_update listing OpList "" "" 0 adminProc).
  - reflexivity.
  - change (since adminProc (final (invoke listing OpList "" "" 0 adminProc)))
      with [NewService "appengine-modules-api-go-client/get_modules";
            ServicesList "appengine-modules-api-go-client/get_modules" "test-project"].
    apply elem_of_cons. right. apply elem_of_cons. by left.
Defined.

Lemma DefaultVersion_tie_is_allocated :
  ∃ service,
    Services_Get (fake (inl manual10) (inl (serviceOf tie)) noResponse)
      (projectID adminProc) (moduleOrDefault adminProc "default") = inl service
    ∧ is_Some (allocationsOf service !! "version-a").
Proof.
  destruct (DefaultVersion_version_or_error
              (fake (inl manual10) (inl (serviceOf tie)) noResponse) "default" adminProc
              (sent adminProc
                 [NewService (clientUserAgent OpDefaultVersion);
                  ServicesGet (clientUserAgent OpDefaultVersion) "test-project" "default"])
              "version-a" None) as [_ Hallocated]; [reflexivity|reflexivity|].
  apply Hallocated. reflexivity.
Defined.

Lemma oneFull_selects_v1 :
  selectVersion (reversed (fake (inl manual10) (inr notFound) noResponse))
    (serviceOf oneFull) = "v1".
Proof.
  apply (full_allocation_wins _ (serviceOf oneFull) oneFull "v1" Float64.one);
    [reflexivity|reflexivity|reflexivity|].
  change (map_Forall (λ v' a', Float64.eq a' Float64.one = true → v' = "v1") oneFull).
  apply (bool_decide_unpack _). vm_compute. exact I.
Defined.

Lemma twoFull_can_select_v2 :
  ∃ entries, entries ≡ₚ map_to_list twoFull
             ∧ (scanAllocations entries "" Float64.minus_one).1 = "v2".
Proof.
  apply (any_full_allocation_can_win twoFull "v2" Float64.one); reflexivity.
Defined.

Lemma nothingAbove_is_an_error :
  result ("", None)
    (DefaultVersion (fake (inl manual10) (inl (serviceOf nothingAbove)) noResponse)
       "default" adminProc)
  = ("", Some (ErrorString
                 ("module: could not determine default version for module '"
                  +:+ moduleOrDefault adminProc "default" +:+ "'"))).
Proof.
  apply (DefaultVersion_nothing_above_initial
           (fake (inl manual10) (inl (serviceOf nothingAbove)) noResponse) "default"
           adminProc (serviceOf nothingAbove)); [reflexivity|reflexivity|reflexivity|].
  change (map_Forall (λ _ a, Float64.gt a Float64.minus_one = false) nothingAbove).
  apply (bool_decide_unpack _). vm_compute. exact I.
Defined.

Lemma NumInstances_failed_count :
  (result (1%Z, None) (NumInstances (failing notFound) "default" "v3" adminProc)).1 = 0%Z.
Proof.
  apply (NumInstances_error_means_zero (failing notFound) "default" "v3" adminProc
           (final (NumInstances (failing notFound) "default" "v3" adminProc))
           _ notFound).
  reflexivity.
Defined.

Lemma negative_count_is_passed :
  since adminProc (final (SetNumInstances listing "default" "v1" (-1) adminProc))
  = [NewService (clientUserAgent OpSetNumInstances);
     VersionsPatch (clientUserAgent OpSetNumInstances) (projectID adminProc)
       (moduleOrDefault adminProc "default") (versionOrDefault listing "v1")
       (instancesUpdate (-1)) "manualScaling.instances"].
Proof.
  destruct (SetNumInstances_passes_count_unchecked listing "default" "v1" (-1) adminProc)
    as [Hmodern _].
  - unfold GoInt.in_int64. simpl. lia.
  - apply Hmodern; reflexivity.
Defined.

Lemma appProc_suffix : ∃ pre, applicationID appProc = pre +:+ projectID appProc.
Proof. apply (derived_projectID_is_suffix appProc). reflexivity. Defined.

Lemma domainProc_empty : projectID domainProc = "".
Proof.
  apply (projectID_without_tilde domainProc); [reflexivity|].
  simpl. repeat split; discriminate.
Defined.

Lemma handler_error_last_on_List_failure :
  Forall (λ o, main.is_error o = false)
    [main.HttpError ("Error listing modules: " +:+ Error (failing notFound) notFound) 500]
  ∨ ∃ body text,
      [main.HttpError ("Error listing modules: " +:+ Error (failing notFound) notFound) 500]
      = body ++ [main.HttpError text 500]
      ∧ Forall (λ o, main.is_error o = false) body.
Proof.
  apply (handler_error_is_last_write (failing notFound) "default" adminProc
           (final (List (failing notFound) adminProc))).
  reflexivity.
Defined.

Lemma handler_List_failure :
  ∃ out,
    main.handler (failing notFound) "default" adminProc
    = Done out (final (List (failing notFound) adminProc))
    ∧ out = [main.HttpError
               ("Error listing modules: " +:+ Error (failing notFound) notFound) 500]
    ∧ main.statusOf out = 500%Z.
Proof.
  destruct (handler_stops_at_failure (failing notFound) "default" adminProc) as [Hlist _].
  apply (Hlist []). reflexivity.
Defined.

Lemma handler_unknown_default :
  ∃ out,
    result [] (main.handler listing "frontend" adminProc) = out
    ∧ main.Fprintf ("DefaultVersion unknown:" +:+ main.newline) ∈ out.
Proof.
  destruct (handler_masks_failures listing "frontend" adminProc
              (final (List listing adminProc))
              (final (DefaultVersion listing "frontend" (final (List listing adminProc))))
              (final (Versions listing "default"
                        (final (DefaultVersion listing "frontend"
                                  (final (List listing adminProc))))))
              (final (main.handler listing "frontend" adminProc))
              ["default"; "backend-api"] ["v2"; "v1"] ""
              (Some (Errorf "module: Module '%s' not found" "frontend")) None)
    as [Hrun _]; [reflexivity|reflexivity|reflexivity|reflexivity|].
  exists (result [] (main.handler listing "frontend" adminProc)).
  split; [reflexivity|]. rewrite Hrun. cbn [result map].
  rewrite !elem_of_app, !elem_of_cons. left. right. left. left. reflexivity.
Defined.

End Instance.
